(** * SORB AI order intake: the model classes of [model.py] and the four
      graph nodes of [main.py], embedded as Rocq functions.

    Conventions of the embedding.
    - A Python [str] is a [string]: the development covers the strings
      whose characters are code points below 256. There the class [\d] of
      the [re] module is exactly the ten digits [0-9]; beyond, it also has
      the decimal digits of other scripts, which are outside the embedding.
    - A Python [float] is a binary64 [float] of the primitive floats.
    - [None] in an [Optional] field is [None] of [option].
    - The two chat models of [tool.py] are external; they are Section
      variables, and every invocation is recorded in the outcome of a node.
    - [print] calls are not modelled. *)

From Stdlib Require Import String Ascii List Bool Arith Lia Floats.
Import ListNotations.
Local Open Scope string_scope.
Local Open Scope list_scope.

(** ** A fragment of Python's [re]: anchored sequences of counted classes *)

Definition LF : ascii := ascii_of_nat 10.

Definition in_range (lo hi c : ascii) : bool :=
  Nat.leb (nat_of_ascii lo) (nat_of_ascii c) && Nat.leb (nat_of_ascii c) (nat_of_ascii hi).

(** The bracket expression [[\da-zA-Z]], on the code points below 256: the
    decimal digits there are [0-9] only. *)
Definition class_d_a_z_A_Z (c : ascii) : bool :=
  in_range "0"%char "9"%char c || in_range "a"%char "z"%char c
  || in_range "A"%char "Z"%char c.

(** The escaped dot [\.]. *)
Definition class_dot (c : ascii) : bool := Ascii.eqb c "."%char.

Inductive re_item : Type :=
| Caret                                          (* ^ *)
| Dollar                                         (* $ *)
| Repeat (cls : ascii -> bool) (count : nat).    (* cls{count} *)

(** [cls{n}] at the head of [s]: the rest of [s] after [n] characters of the
    class, [None] when there are not that many. *)
Fixpoint take_class (cls : ascii -> bool) (n : nat) (s : string) : option string :=
  match n with
  | O => Some s
  | S n' =>
      match s with
      | String c rest => if cls c then take_class cls n' rest else None
      | EmptyString => None
      end
  end.

(** Without [re.MULTILINE], [$] holds at the end of the string and also just
    before a line feed that is the last character of the string. *)
Definition at_dollar (s : string) : bool :=
  match s with
  | EmptyString => true
  | String c EmptyString => Ascii.eqb c LF
  | _ => false
  end.

(** Matching the items from position [pos] on, [s] being what is left of the
    subject there. *)
Fixpoint match_items (p : list re_item) (pos : nat) (s : string) : bool :=
  match p with
  | [] => true
  | Caret :: p' => Nat.eqb pos 0 && match_items p' pos s
  | Dollar :: p' => at_dollar s && match_items p' pos s
  | Repeat cls n :: p' =>
      match take_class cls n s with
      | Some rest => match_items p' (pos + n) rest
      | None => false
      end
  end.

(** [re.match(pattern, string)], as the truth value of its result. *)
Definition re_match (pattern : list re_item) (s : string) : bool :=
  match_items pattern 0 s.

(** [r'^[\da-zA-Z]{7}$'] *)
Definition intervenant_pattern : list re_item :=
  [Caret; Repeat class_d_a_z_A_Z 7; Dollar].

(** [r"^[\da-zA-Z]{6}\.[\da-zA-Z]{3}$"] *)
Definition security_pattern : list re_item :=
  [Caret; Repeat class_d_a_z_A_Z 6; Repeat class_dot 1; Repeat class_d_a_z_A_Z 3; Dollar].

(** Truth value of a [str]: [not s] holds for the empty string only. *)
Definition truthy (s : string) : bool :=
  match s with EmptyString => false | _ => true end.

(** ** model.py *)

Inductive OrderType : Type := buy | sell.
Inductive OrderClass : Type := normal.

Definition OrderType_value (t : OrderType) : string :=
  match t with buy => "BUY" | sell => "SELL" end.
Definition OrderClass_value (c : OrderClass) : string :=
  match c with normal => "N" end.

(** [class OrderInitiation(BaseModel)]: every field but the flag is optional. *)
Record OrderInitiation : Type := mkOrderInitiation {
  order_confirmed : bool;
  intervenant : option string;
  security_id : option string;
  orderType : option OrderType;
  quantity : option float;
  orderClass : option OrderClass
}.

(** [class EnhancedOrderInitiation(OrderInitiation)]: every field mandatory. *)
Module Enhanced.
Record t : Type := mk {
  order_confirmed : bool;
  intervenant : string;
  security_id : string;
  orderType : OrderType;
  quantity : float;
  orderClass : OrderClass
}.
End Enhanced.
Definition EnhancedOrderInitiation : Type := Enhanced.t.

(** One line of a pydantic [ValidationError]: the kind of the error, the field
    it is located at and its message. *)
Record ErrorDetails : Type := mkError {
  err_type : string;
  err_loc : string;
  err_msg : string
}.

(** A [ValidationError] carries one entry per rejected field, in the order in
    which the fields are declared. *)
Definition ValidationError : Type := list ErrorDetails.

(** The three [@field_validator]s: [inl] is the message of the [ValueError]
    raised, [inr] the value returned. *)
Definition validate_intervenant (intervenant : string) : string + string :=
  if negb (truthy intervenant) || negb (re_match intervenant_pattern intervenant)
  then inl "It seems that the intervenant is missing or incomplete, please correct"
  else inr intervenant.

Definition validate_security (security_id : string) : string + string :=
  if negb (truthy security_id) || negb (re_match security_pattern security_id)
  then inl "It seems that the security is missing or incomplete, please correct"
  else inr security_id.

(** [quantity is None or quantity <= 0]: the validator runs after the type
    check, on a float; the comparison is the IEEE one. *)
Definition validate_quantity (quantity : float) : string + float :=
  if PrimFloat.leb quantity 0%float
  then inl "Quantity must be a positive number."
  else inr quantity.

(** What pydantic does for one field of the strict class: the type check
    (here, that the value is not [None]), then the field validator if the
    class declares one. *)
Definition check_field {A : Type} (loc type_err type_msg : string)
    (validator : A -> string + A) (input : option A) : ErrorDetails + A :=
  match input with
  | None => inl (mkError type_err loc type_msg)
  | Some v =>
      match validator v with
      | inl m => inl (mkError "value_error" loc ("Value error, " ++ m))
      | inr v' => inr v'
      end
  end.

Definition no_validator {A : Type} (v : A) : string + A := inr v.

Definition errors_of {A : Type} (r : ErrorDetails + A) : list ErrorDetails :=
  match r with inl e => [e] | inr _ => [] end.

(** The check of each field of the strict class, on the keyword arguments
    of the constructor. [order_confirmed] is a [bool] in both classes. *)
Definition check_intervenant (kwargs : OrderInitiation) : ErrorDetails + string :=
  check_field "intervenant" "string_type" "Input should be a valid string"
    validate_intervenant (intervenant kwargs).

Definition check_security_id (kwargs : OrderInitiation) : ErrorDetails + string :=
  check_field "security_id" "string_type" "Input should be a valid string"
    validate_security (security_id kwargs).

Definition check_orderType (kwargs : OrderInitiation) : ErrorDetails + OrderType :=
  check_field "orderType" "enum" "Input should be 'BUY' or 'SELL'"
    no_validator (orderType kwargs).

Definition check_quantity (kwargs : OrderInitiation) : ErrorDetails + float :=
  check_field "quantity" "float_type" "Input should be a valid number"
    validate_quantity (quantity kwargs).

Definition check_orderClass (kwargs : OrderInitiation) : ErrorDetails + OrderClass :=
  check_field "orderClass" "enum" "Input should be 'N'"
    no_validator (orderClass kwargs).

(** [EnhancedOrderInitiation(...)] on keyword arguments: all fields are
    checked and all the errors are gathered in one [ValidationError]. *)
Definition EnhancedOrderInitiation_init (kwargs : OrderInitiation)
    : ValidationError + EnhancedOrderInitiation :=
  match check_intervenant kwargs, check_security_id kwargs, check_orderType kwargs,
        check_quantity kwargs, check_orderClass kwargs with
  | inr i, inr s, inr t, inr q, inr c =>
      inr (Enhanced.mk (order_confirmed kwargs) i s t q c)
  | r_intervenant, r_security_id, r_orderType, r_quantity, r_orderClass =>
      inl (errors_of r_intervenant ++ errors_of r_security_id ++ errors_of r_orderType
           ++ errors_of r_quantity ++ errors_of r_orderClass)
  end.

(** An object held where an [OrderInitiation] is expected is an instance of
    that class or of its subclass. *)
Inductive OrderInstance : Type :=
| plain (o : OrderInitiation)
| enhanced (e : EnhancedOrderInitiation).

(** [model_dump()]: the fields as keyword arguments. *)
Definition model_dump (o : OrderInstance) : OrderInitiation :=
  match o with
  | plain d => d
  | enhanced e =>
      mkOrderInitiation (Enhanced.order_confirmed e) (Some (Enhanced.intervenant e))
        (Some (Enhanced.security_id e)) (Some (Enhanced.orderType e))
        (Some (Enhanced.quantity e)) (Some (Enhanced.orderClass e))
  end.

Record AiAnalysis : Type := mkAiAnalysis {
  orderInitiation : OrderInstance;
  comment : string
}.

Inductive DataType : Type := Human | System | AI.
Inductive PayloadType : Type := FinancialPosition | OrderInitiationPayload.

Record ConversationMessage : Type := mkConversationMessage {
  data_type : DataType;
  data : string;
  payload_type : option PayloadType;
  payload : option string
}.

(** langchain's message classes; [main.py] builds [AIMessage]s only. The
    content of a message is a text: the constructors validate it, see
    [AIMessage_init]. *)
Inductive BaseMessage : Type :=
| AIMessage (content : string)
| HumanMessage (content : string)
| SystemMessage (content : string).

Definition message_type (m : BaseMessage) : string :=
  match m with
  | AIMessage _ => "ai"
  | HumanMessage _ => "human"
  | SystemMessage _ => "system"
  end.

Definition content (m : BaseMessage) : string :=
  match m with AIMessage c | HumanMessage c | SystemMessage c => c end.

(** [class ConversationState(TypedDict)]: a key is [None] while nothing has
    been stored under it. A value of this type is also what a node returns,
    the keys it updates. *)
Record ConversationState : Type := mkState {
  messages : option (list BaseMessage);
  conversation_messages : option (list ConversationMessage);
  conversation_type : option PayloadType;
  order_initiation : option AiAnalysis;
  question : option string
}.

(** ** The request body *)

(** What [json.loads] makes of the body of a request. *)
#[local] Set Warnings "-register-all".
Inductive JSON : Type :=
| JNull
| JBool (b : bool)
| JNumber (x : float)
| JString (s : string)
| JArray (items : list JSON)
| JObject (members : list (string * JSON)).

(** Looking a key up in the [dict] built from an object: of two members with
    the same key the later one is kept. *)
Fixpoint dict_get (key : string) (members : list (string * JSON)) : option JSON :=
  match members with
  | [] => None
  | (k, v) :: rest =>
      match dict_get key rest with
      | Some later => Some later
      | None => if String.eqb k key then Some v else None
      end
  end.

(** [data_type: Literal["Human", "System", "AI"]], a required field. *)
Definition validate_data_type (input : option JSON) : ErrorDetails + DataType :=
  match input with
  | None => inl (mkError "missing" "data_type" "Field required")
  | Some (JString s) =>
      if String.eqb s "Human" then inr Human
      else if String.eqb s "System" then inr System
      else if String.eqb s "AI" then inr AI
      else inl (mkError "literal_error" "data_type" "Input should be 'Human', 'System' or 'AI'")
  | Some _ => inl (mkError "literal_error" "data_type" "Input should be 'Human', 'System' or 'AI'")
  end.

(** [data: str], a required field. *)
Definition validate_data (input : option JSON) : ErrorDetails + string :=
  match input with
  | None => inl (mkError "missing" "data" "Field required")
  | Some (JString s) => inr s
  | Some _ => inl (mkError "string_type" "data" "Input should be a valid string")
  end.

(** [payload_type: Optional[Literal["FinancialPosition", "OrderInitiation"]] = None] *)
Definition validate_payload_type (input : option JSON) : ErrorDetails + option PayloadType :=
  match input with
  | None => inr None
  | Some JNull => inr None
  | Some (JString s) =>
      if String.eqb s "FinancialPosition" then inr (Some FinancialPosition)
      else if String.eqb s "OrderInitiation" then inr (Some OrderInitiationPayload)
      else inl (mkError "literal_error" "payload_type"
                  "Input should be 'FinancialPosition' or 'OrderInitiation'")
  | Some _ => inl (mkError "literal_error" "payload_type"
                     "Input should be 'FinancialPosition' or 'OrderInitiation'")
  end.

(** [payload: Optional[str] = None] *)
Definition validate_payload (input : option JSON) : ErrorDetails + option string :=
  match input with
  | None => inr None
  | Some JNull => inr None
  | Some (JString s) => inr (Some s)
  | Some _ => inl (mkError "string_type" "payload" "Input should be a valid string")
  end.

(** Validation of one item of the body against [ConversationMessage]. The
    class declares the four fields and no validator relating them. *)
Definition ConversationMessage_validate (item : JSON) : ValidationError + ConversationMessage :=
  match item with
  | JObject members =>
      let r_data_type := validate_data_type (dict_get "data_type" members) in
      let r_data := validate_data (dict_get "data" members) in
      let r_payload_type := validate_payload_type (dict_get "payload_type" members) in
      let r_payload := validate_payload (dict_get "payload" members) in
      match r_data_type, r_data, r_payload_type, r_payload with
      | inr dt, inr d, inr pt, inr p => inr (mkConversationMessage dt d pt p)
      | _, _, _, _ =>
          inl (errors_of r_data_type ++ errors_of r_data ++ errors_of r_payload_type
               ++ errors_of r_payload)
      end
  | _ => inl [mkError "model_attributes_type" "" "Input should be a valid dictionary or object to extract fields from"]
  end.

(** The items of a [List[ConversationMessage]] body, each with its index:
    the messages when all are valid, the errors of all items otherwise. *)
Fixpoint validate_items (index : nat) (items : list JSON)
    : list (nat * ErrorDetails) + list ConversationMessage :=
  match items with
  | [] => inr []
  | item :: rest =>
      match ConversationMessage_validate item, validate_items (S index) rest with
      | inr m, inr ms => inr (m :: ms)
      | inr _, inl errs => inl errs
      | inl e, inr _ => inl (map (pair index) e)
      | inl e, inl errs => inl (map (pair index) e ++ errs)
      end
  end.

Definition validate_message_list (body : JSON)
    : list (nat * ErrorDetails) + list ConversationMessage :=
  match body with
  | JArray items => validate_items 0 items
  | _ => inl [(0, mkError "list_type" "body" "Input should be a valid list")]
  end.

(** The inverse direction, used to build requests: the JSON object of a
    message, with a [null] member for an absent optional field. *)
Definition DataType_value (t : DataType) : string :=
  match t with Human => "Human" | System => "System" | AI => "AI" end.
Definition PayloadType_value (t : PayloadType) : string :=
  match t with FinancialPosition => "FinancialPosition" | OrderInitiationPayload => "OrderInitiation" end.

Definition json_of_option {A : Type} (f : A -> JSON) (o : option A) : JSON :=
  match o with Some a => f a | None => JNull end.

Definition json_of_message (m : ConversationMessage) : JSON :=
  JObject [("data_type", JString (DataType_value (data_type m)));
           ("data", JString (data m));
           ("payload_type", json_of_option (fun t => JString (PayloadType_value t)) (payload_type m));
           ("payload", json_of_option JString (payload m))].

(** ** main.py *)

(** The objects the presence test of [categorize_order] tells apart: [None],
    a [str], and the sentinel [undefined] of [starlette.config]. *)
Inductive PyObject : Type :=
| PyNone
| PyStr (s : string)
| starlette_undefined.

Definition object_of (field : option string) : PyObject :=
  match field with Some s => PyStr s | None => PyNone end.

(** [x is undefined] *)
Definition is_undefined (x : PyObject) : bool :=
  match x with starlette_undefined => true | _ => false end.

Definition DataType_eqb (a b : DataType) : bool :=
  match a, b with
  | Human, Human | System, System | AI, AI => true
  | _, _ => false
  end.

(** The exceptions that leave a node. [ContentValidationError] is the
    pydantic [ValidationError] of a message built on a content that is not
    a text; it is raised outside the [try] of [validate_order]. *)
Inductive Exception : Type :=
| KeyError (key : string)
| IndexError
| ChainError
| ContentValidationError.

(** The call [AIMessage(content=...)] on an [Optional[str]]: the class
    validates its content, and [None] is not one. *)
Definition AIMessage_init (content : option string) : Exception + BaseMessage :=
  match content with
  | Some text => inr (AIMessage text)
  | None => inl ContentValidationError
  end.

(** The body of the loop of [categorize_order]: what one message appends to
    [messages], or the exception raised while building a message. *)
Definition categorize_message (messages : list BaseMessage) (message : ConversationMessage)
    : Exception + list BaseMessage :=
  let after_payload :=
    if DataType_eqb (data_type message) AI then
      if negb (is_undefined (object_of (payload message))) then
        match AIMessage_init (payload message) with
        | inr m => inr (messages ++ [m])
        | inl exc => inl exc
        end
      else inr messages
    else inr messages in
  match after_payload with
  | inr messages =>
      match AIMessage_init (Some (data message)) with
      | inr m => inr (messages ++ [m])
      | inl exc => inl exc
      end
  | inl exc => inl exc
  end.

(** The loop itself: it stops at the first exception. *)
Fixpoint categorize_loop (conversation_messages : list ConversationMessage)
    (messages : list BaseMessage) : Exception + list BaseMessage :=
  match conversation_messages with
  | [] => inr messages
  | message :: rest =>
      match categorize_message messages message with
      | inr messages => categorize_loop rest messages
      | inl exc => inl exc
      end
  end.

(** The loop from [messages = []]. *)
Definition categorize_messages (conversation_messages : list ConversationMessage)
    : Exception + list BaseMessage :=
  categorize_loop conversation_messages [].

(** A call to one of the two chains, with its input. *)
Inductive Invocation : Type :=
| create_content_invoke (messages : list BaseMessage)
| validate_content_invoke (validation_errors : ValidationError) (initial_message : string).

(** What running a node gives: the state as the node leaves it (it may have
    assigned to objects held in the state), the keys it returns, and the
    chain calls it made; or the exception it raised. *)
Inductive Outcome : Type :=
| Returns (state_after : ConversationState) (update : ConversationState)
    (calls : list Invocation)
| Raises (e : Exception) (calls : list Invocation).

Definition no_update : ConversationState := mkState None None None None None.

Definition calls_of (o : Outcome) : list Invocation :=
  match o with Returns _ _ calls | Raises _ calls => calls end.

Definition or_else {A : Type} (new old : option A) : option A :=
  match new with Some _ => new | None => old end.

(** The graph writes the returned keys over the state. *)
Definition merge (state update : ConversationState) : ConversationState :=
  mkState (or_else (messages update) (messages state))
          (or_else (conversation_messages update) (conversation_messages state))
          (or_else (conversation_type update) (conversation_type state))
          (or_else (order_initiation update) (order_initiation state))
          (or_else (question update) (question state)).

Definition set_order_initiation (state : ConversationState) (a : AiAnalysis)
    : ConversationState :=
  mkState (messages state) (conversation_messages state) (conversation_type state)
          (Some a) (question state).

Section Graph.

(** [create_content_chain.invoke]: [None] when the call raises, else the
    parsed tool outputs. *)
Variable create_content_chain : list BaseMessage -> option (list AiAnalysis).

(** [validate_content_chain.invoke] on the errors of the failed validation
    and the comment; the outputs are given by their [content]. The code
    passes [str(e)], the text pydantic prints for the errors; the errors
    themselves stand for it here. *)
Variable validate_content_chain : ValidationError -> string -> option (list string).

(** [model_dump_json()] of pydantic. *)
Variable model_dump_json : OrderInstance -> string.

Definition categorize_order (state : ConversationState) : Outcome :=
  match conversation_messages state with
  | None => Raises (KeyError "conversation_messages") []
  | Some conversation_messages =>
      match categorize_messages conversation_messages with
      | inr messages => Returns state (mkState (Some messages) None None None None) []
      | inl exc => Raises exc []
      end
  end.

Definition create_order (state : ConversationState) : Outcome :=
  match messages state with
  | None => Raises (KeyError "messages") []
  | Some messages =>
      let call := create_content_invoke messages in
      match create_content_chain messages with
      | None => Raises ChainError [call]
      | Some [] => Raises IndexError [call]
      | Some (res0 :: _) =>
          Returns state (mkState None None None (Some res0) None) [call]
      end
  end.

Definition validate_order (state : ConversationState) : Outcome :=
  match order_initiation state with
  | None => Raises (KeyError "order_initiation") []
  | Some order =>
      match EnhancedOrderInitiation_init (model_dump (orderInitiation order)) with
      | inr enhanced_order =>
          (* state["order_initiation"].orderInitiation = enhanced_order; no return *)
          Returns
            (set_order_initiation state (mkAiAnalysis (enhanced enhanced_order) (comment order)))
            no_update []
      | inl e =>
          let call := validate_content_invoke e (comment order) in
          match validate_content_chain e (comment order) with
          | None => Raises ChainError [call]
          | Some [] => Raises IndexError [call]
          | Some (res0 :: _) =>
              (* order.comment = res[0].content; return {"order_initiation": order} *)
              let order := mkAiAnalysis (orderInitiation order) res0 in
              Returns (set_order_initiation state order)
                      (mkState None None None (Some order) None) [call]
          end
      end
  end.

Definition create_response (state : ConversationState) : Outcome :=
  match order_initiation state with
  | None => Raises (KeyError "order_initiation") []
  | Some order =>
      let conversation :=
        mkConversationMessage AI (comment order) (Some OrderInitiationPayload)
          (Some (model_dump_json (orderInitiation order))) in
      match conversation_messages state with
      | None => Raises (KeyError "conversation_messages") []
      | Some conversation_messages =>
          Returns state
            (mkState None (Some (conversation_messages ++ [conversation])) None None None) []
      end
  end.

(** One node after the work done so far: the state it receives is the
    state left by the previous node with the returned keys written. *)
Definition then_node (before : Outcome) (node : ConversationState -> Outcome) : Outcome :=
  match before with
  | Raises e calls => Raises e calls
  | Returns state update calls =>
      match node (merge state update) with
      | Returns state' update' calls' => Returns state' update' (calls ++ calls')
      | Raises e calls' => Raises e (calls ++ calls')
      end
  end.

(** START, categorize_order, create_order, validate_order, create_response, END *)
Definition graph_invoke (inputs : ConversationState) : Outcome :=
  then_node (then_node (then_node (then_node (Returns inputs no_update [])
    categorize_order) create_order) validate_order) create_response.

Inductive Response : Type :=
| unprocessable (errors : list (nat * ErrorDetails))     (* 422 *)
| server_error (e : Exception)                           (* 500 *)
| ok (body : list ConversationMessage).                  (* 200 *)

(** [POST /orderinitiation/] *)
Definition load_default_values (body : JSON) : Response :=
  match validate_message_list body with
  | inl errors => unprocessable errors
  | inr message_list =>
      let inputs := mkState None (Some message_list) None None None in
      match graph_invoke inputs with
      | Raises e _ => server_error e
      | Returns state update _ =>
          match conversation_messages (merge state update) with
          | Some result => ok result
          | None => server_error (KeyError "conversation_messages")
          end
      end
  end.

End Graph.

(** ** The validation rules in the words of the specification

    These definitions follow the rule table of the Order Validator, not the
    code; the theorems compare the two. *)

(** A letter or a digit. *)
Definition alphanumeric (c : ascii) : bool :=
  let n := nat_of_ascii c in
  (Nat.leb 48 n && Nat.leb n 57) || (Nat.leb 65 n && Nat.leb n 90)
  || (Nat.leb 97 n && Nat.leb n 122).

(** Exactly [n] alphanumeric characters. *)
Definition exactly_alphanumeric (n : nat) (s : string) : bool :=
  Nat.eqb (String.length s) n && forallb alphanumeric (list_ascii_of_string s).

(** Exactly 6 alphanumeric characters, a dot, 3 alphanumeric characters. *)
Definition security_shape (s : string) : bool :=
  Nat.eqb (String.length s) 10
  && exactly_alphanumeric 6 (substring 0 6 s)
  && String.eqb (substring 6 1 s) "."
  && exactly_alphanumeric 3 (substring 7 3 s).

Inductive Rule : Type :=
| intervenant_rule
| security_id_rule
| order_type_rule
| quantity_rule
| order_class_rule
| order_confirmed_rule.

Definition holds (r : Rule) (d : OrderInitiation) : bool :=
  match r with
  | intervenant_rule =>
      (* present; exactly 7 alphanumeric characters *)
      match intervenant d with
      | Some s => exactly_alphanumeric 7 s
      | None => false
      end
  | security_id_rule =>
      (* present; exactly 6 alphanumeric characters + . + 3 alphanumeric characters *)
      match security_id d with
      | Some s => security_shape s
      | None => false
      end
  | order_type_rule =>
      (* present; one of BUY, SELL *)
      match orderType d with
      | Some buy | Some sell => true
      | None => false
      end
  | quantity_rule =>
      (* present; strictly greater than zero *)
      match quantity d with
      | Some q => PrimFloat.ltb 0%float q
      | None => false
      end
  | order_class_rule =>
      (* present; one of the recognized class codes *)
      match orderClass d with
      | Some normal => true
      | None => false
      end
  | order_confirmed_rule =>
      (* present (boolean) *)
      match order_confirmed d with
      | true | false => true
      end
  end.

Definition rule_table : list Rule :=
  [intervenant_rule; security_id_rule; order_type_rule; quantity_rule;
   order_class_rule; order_confirmed_rule].

Definition all_rules_hold (d : OrderInitiation) : bool :=
  forallb (fun r => holds r d) rule_table.

Definition violated_rules (d : OrderInitiation) : list Rule :=
  filter (fun r => negb (holds r d)) rule_table.

(** The field a rule is about, as a [ValidationError] names it. *)
Definition field_of (r : Rule) : string :=
  match r with
  | intervenant_rule => "intervenant"
  | security_id_rule => "security_id"
  | order_type_rule => "orderType"
  | quantity_rule => "quantity"
  | order_class_rule => "orderClass"
  | order_confirmed_rule => "order_confirmed"
  end.

(** Whether the last character of a string is a line feed. *)
Fixpoint ends_with_line_feed (s : string) : bool :=
  match s with
  | EmptyString => false
  | String c EmptyString => Ascii.eqb c LF
  | String _ rest => ends_with_line_feed rest
  end.

(** The errors of the five field checks of the strict class, in the order
    of the fields. *)
Definition field_errors (d : OrderInitiation) : ValidationError :=
  errors_of (check_intervenant d) ++ errors_of (check_security_id d)
  ++ errors_of (check_orderType d) ++ errors_of (check_quantity d)
  ++ errors_of (check_orderClass d).

(** The fields named by the errors handed to the clarification chain. *)
Definition reported_fields (e : ValidationError) : list string := map err_loc e.

(** The message invariant of the data model: [payload] is set exactly when
    [payload_type] is. *)
Definition message_invariant (m : ConversationMessage) : Prop :=
  payload m <> None <-> payload_type m <> None.

(** The rule of the Message Normalizer as the specification words it: the
    payload text when a payload is set, then the data text. *)
Definition normalizer_rule (m : ConversationMessage) : list string :=
  match payload m with
  | Some p => [p; data m]
  | None => [data m]
  end.

(** The same rule restricted to what the code does on purpose: the payload
    is looked at for AI turns only. *)
Definition normalizer_rule_ai_only (m : ConversationMessage) : list BaseMessage :=
  match data_type m, payload m with
  | AI, Some p => [AIMessage p; AIMessage (data m)]
  | _, _ => [AIMessage (data m)]
  end.

(** ** Sample values *)

Definition scenario_2 : OrderInitiation :=
  mkOrderInitiation true (Some "AB12345") (Some "123456.ABC") (Some buy)
    (Some 100%float) (Some normal).

(** The identifier of scenario 2 followed by a line feed. *)
Definition with_line_feed (s : string) : string := s ++ String LF EmptyString.

Definition draft_trailing_line_feed : OrderInitiation :=
  mkOrderInitiation true (Some (with_line_feed "AB12345")) (Some "123456.ABC") (Some buy)
    (Some 100%float) (Some normal).

Definition draft_nan_quantity : OrderInitiation :=
  mkOrderInitiation true (Some "AB12345") (Some "123456.ABC") (Some buy)
    (Some nan) (Some normal).

(** A line feed after the identifier and no security. *)
Definition draft_two_violations : OrderInitiation :=
  mkOrderInitiation true (Some (with_line_feed "AB12345")) None (Some buy)
    (Some 100%float) (Some normal).

(** Scenario 3: a negative quantity. Scenario 4: a security of the wrong shape. *)
Definition scenario_3 : OrderInitiation :=
  mkOrderInitiation true (Some "AB12345") (Some "123456.ABC") (Some buy)
    (Some (-5)%float) (Some normal).

Definition scenario_4 : OrderInitiation :=
  mkOrderInitiation true (Some "AB12345") (Some "12.345") (Some buy)
    (Some 100%float) (Some normal).

Definition draft_empty : OrderInitiation :=
  mkOrderInitiation false None None None None (Some normal).

Definition state_with (history : list ConversationMessage) (d : OrderInstance) (c : string)
    : ConversationState :=
  mkState None (Some history) None (Some (mkAiAnalysis d c)) None.

(** A clarification chain that answers with the comment it was given. *)
Definition echo_chain (_ : ValidationError) (initial_message : string) : option (list string) :=
  Some [initial_message].

Definition fixed_chain (answer : string) (_ : ValidationError) (_ : string)
    : option (list string) :=
  Some [answer].

(** An extraction chain that always proposes the same analysis. *)
Definition constant_extraction (a : AiAnalysis) (_ : list BaseMessage)
    : option (list AiAnalysis) :=
  Some [a].

Definition sample_dump (o : OrderInstance) : string :=
  match intervenant (model_dump o) with
  | Some s => "{intervenant:" ++ s ++ "}"
  | None => "{}"
  end.

Definition human_turn_with_payload : ConversationMessage :=
  mkConversationMessage Human "buy 100" None (Some "{}").

Definition ai_turn_without_payload : ConversationMessage :=
  mkConversationMessage AI "Which security?" None None.

Definition ai_turn_with_payload : ConversationMessage :=
  mkConversationMessage AI "Which security?" (Some OrderInitiationPayload) (Some "{}").

Definition human_turn : ConversationMessage :=
  mkConversationMessage Human "AB12345 100" None None.

(** ** The cache middleware of [main.py] *)

(** [str.lower()] on the code points below 256: the letters [A-Z] and the
    accented capitals (all of C0-DE but the multiplication sign D7) move up
    by 32. *)
Definition lower_char (c : ascii) : ascii :=
  let n := nat_of_ascii c in
  if (Nat.leb 65 n && Nat.leb n 90)
     || (Nat.leb 192 n && Nat.leb n 222 && negb (Nat.eqb n 215))
  then ascii_of_nat (n + 32) else c.

Fixpoint lower (s : string) : string :=
  match s with
  | EmptyString => EmptyString
  | String c rest => String (lower_char c) (lower rest)
  end.

(** The raw header list of a response: names in lower case, in the order in
    which they were set. *)
Definition Headers : Type := list (string * string).

Definition remove_header (name : string) (l : Headers) : Headers :=
  filter (fun kv => negb (String.eqb (fst kv) name)) l.

(** Assignment to one header of starlette's [MutableHeaders], on the name
    already in lower case: the first entry of that name takes the value
    where it stands and the later entries of that name are deleted; without
    such an entry the header is appended. *)
Fixpoint set_header (name value : string) (l : Headers) : Headers :=
  match l with
  | [] => [(name, value)]
  | (k, v) :: rest =>
      if String.eqb k name then (name, value) :: remove_header name rest
      else (k, v) :: set_header name value rest
  end.

(** [headers[key] = value] *)
Definition headers_setitem (key value : string) (l : Headers) : Headers :=
  set_header (lower key) value l.

(** [headers[key]]: the value of the first entry of that name. *)
Fixpoint get_header (name : string) (l : Headers) : option string :=
  match l with
  | [] => None
  | (k, v) :: rest => if String.eqb k name then Some v else get_header name rest
  end.

Definition headers_getitem (key : string) (l : Headers) : option string :=
  get_header (lower key) l.

Record HttpResponse : Type := mkHttpResponse {
  status_code : nat;
  headers : Headers;
  response_body : string
}.

(** [NoCacheMiddleware.dispatch]: the response of the rest of the
    application with three headers assigned. *)
Definition dispatch {Request : Type} (call_next : Request -> HttpResponse)
    (request : Request) : HttpResponse :=
  let response := call_next request in
  let h := headers response in
  let h := headers_setitem "Cache-Control"
             "no-store, no-cache, must-revalidate, max-age=0, post-check=0, pre-check=0" h in
  let h := headers_setitem "Pragma" "no-cache" h in
  let h := headers_setitem "Expires" "0" h in
  mkHttpResponse (status_code response) h (response_body response).

Definition no_cache_names : list string := ["cache-control"; "pragma"; "expires"].

Definition is_no_cache_name (name : string) : bool :=
  existsb (String.eqb name) no_cache_names.

(** ** Auxiliary notions for the properties of the graph *)

(** The exception of [res = chain.invoke(...); res[0]] when there is no
    first output: the call raised, or it gave an empty list. *)
Definition no_first_output {A : Type} (res : option (list A)) : option Exception :=
  match res with
  | None => Some ChainError
  | Some [] => Some IndexError
  | Some (_ :: _) => None
  end.

(** The inputs [load_default_values] gives to the graph. *)
Definition inputs_of (message_list : list ConversationMessage) : ConversationState :=
  mkState None (Some message_list) None None None.

Definition is_AI (m : ConversationMessage) : bool := DataType_eqb (data_type m) AI.

(** Two turns the loop of [categorize_order] cannot tell apart: same
    [data_type], same [data], and same [payload] when they are AI turns. *)
Definition same_for_categorize (m m' : ConversationMessage) : Prop :=
  data_type m = data_type m' /\ data m = data m'
  /\ (data_type m = AI -> payload m = payload m').

(** [l] keeps some of the elements of [l'] in the order they have there. *)
Inductive subsequence {A : Type} : list A -> list A -> Prop :=
| subsequence_nil : forall l', subsequence [] l'
| subsequence_keep : forall x l l', subsequence l l' -> subsequence (x :: l) (x :: l')
| subsequence_skip : forall x l l', subsequence l l' -> subsequence l (x :: l').

(** * Properties *)

(** ** The regular expressions and the comparison of [validate_quantity] *)

Lemma alphanumeric_class (c : ascii) : alphanumeric c = class_d_a_z_A_Z c.
Proof.
  destruct c as [b0 b1 b2 b3 b4 b5 b6 b7].
  destruct b0, b1, b2, b3, b4, b5, b6, b7; reflexivity.
Qed.

Lemma forallb_alphanumeric_class (l : list ascii) :
  forallb alphanumeric l = forallb class_d_a_z_A_Z l.
Proof.
  induction l as [|c l IH]; simpl; [reflexivity|].
  now rewrite alphanumeric_class, IH.
Qed.

(** A string made of characters of the class is consumed whole by the
    repetition counted by its length. *)
Lemma take_class_whole (cls : ascii -> bool) (s rest : string) :
  forallb cls (list_ascii_of_string s) = true ->
  take_class cls (String.length s) (s ++ rest)%string = Some rest.
Proof.
  induction s as [|c s IH]; simpl; intros H; [reflexivity|].
  apply andb_true_iff in H as [Hc Hs].
  rewrite Hc. now apply IH.
Qed.

(** Conversely, what a repetition consumes is a prefix of that length made
    of characters of the class. *)
Lemma take_class_inv (cls : ascii -> bool) (n : nat) (s rest : string) :
  take_class cls n s = Some rest ->
  exists pre, s = (pre ++ rest)%string /\ String.length pre = n
              /\ forallb cls (list_ascii_of_string pre) = true.
Proof.
  revert s. induction n as [|n IH]; simpl; intros s H.
  - injection H as <-. exists "". now repeat split.
  - destruct s as [|c s]; [discriminate|].
    destruct (cls c) eqn:Hc; [|discriminate].
    destruct (IH _ H) as (pre & -> & Hlen & Hall).
    exists (String c pre). simpl. rewrite Hc, Hall, Hlen. now repeat split.
Qed.

Lemma at_dollar_inv (s : string) :
  at_dollar s = true -> s = "" \/ s = String LF "".
Proof.
  destruct s as [|c [|c' s]]; simpl; intros H; try discriminate; [now left|].
  right. apply Ascii.eqb_eq in H. now subst.
Qed.

Lemma append_empty_r (s : string) : (s ++ "")%string = s.
Proof. induction s as [|c s IH]; simpl; [reflexivity | now rewrite IH]. Qed.

(** What [re.match(r'^[\da-zA-Z]{7}$', s)] accepts: seven characters of the
    class, and also seven such characters followed by one line feed. *)
Lemma intervenant_pattern_spec (s : string) :
  re_match intervenant_pattern s = true <->
  exists core, exactly_alphanumeric 7 core = true /\ (s = core \/ s = with_line_feed core).
Proof.
  unfold re_match, intervenant_pattern, exactly_alphanumeric, with_line_feed. split.
  - cbn [match_items Nat.eqb andb].
    destruct (take_class class_d_a_z_A_Z 7 s) as [rest|] eqn:Ht; [|discriminate].
    rewrite andb_true_r. intros Hd.
    destruct (take_class_inv _ _ _ _ Ht) as (pre & -> & Hlen & Hall).
    exists pre. rewrite Hlen, forallb_alphanumeric_class, Hall. split; [reflexivity|].
    destruct (at_dollar_inv _ Hd) as [-> | ->]; [left; now rewrite append_empty_r | now right].
  - intros (core & H & Hs). apply andb_true_iff in H as [Hlen Hall].
    apply Nat.eqb_eq in Hlen. rewrite forallb_alphanumeric_class in Hall.
    cbn [match_items Nat.eqb andb]. rewrite <- Hlen.
    destruct Hs as [-> | ->].
    + rewrite <- (append_empty_r core) at 2. now rewrite take_class_whole.
    + now rewrite take_class_whole.
Qed.

(** A strictly positive float is not [<= 0]. *)
Lemma positive_not_le_zero (q : float) :
  PrimFloat.ltb 0%float q = true -> PrimFloat.leb q 0%float = false.
Proof.
  rewrite ltb_spec, leb_spec. unfold SFltb, SFleb.
  change (Prim2SF 0%float) with (S754_zero false).
  destruct (Prim2SF q) as [s|s| |s m e]; simpl; try discriminate;
    destruct s; simpl; try discriminate; reflexivity.
Qed.

(** A string of known length is a sequence of that many characters. *)
Ltac explode s H :=
  simpl in H;
  repeat (destruct s as [|? s]; simpl in H; try discriminate H; try lia);
  clear H.

Ltac split_andb :=
  repeat match goal with
         | H : _ && _ = true |- _ => apply andb_true_iff in H as [? ?]
         end.

Ltac use_true :=
  repeat match goal with
         | H : ?b = true |- context [?b] => rewrite H
         end.

(** The shape the specification gives for a security identifier is accepted
    by [re.match(r"^[\da-zA-Z]{6}\.[\da-zA-Z]{3}$", s)], with or without a
    line feed after it. *)
Lemma security_shape_matches (s : string) :
  security_shape s = true ->
  re_match security_pattern s = true
  /\ re_match security_pattern (with_line_feed s) = true
  /\ truthy s = true.
Proof.
  unfold security_shape. intros H.
  apply andb_true_iff in H as [H H3]. apply andb_true_iff in H as [H Hdot].
  apply andb_true_iff in H as [Hlen H6]. apply Nat.eqb_eq in Hlen.
  do 10 (destruct s as [|? s]; [discriminate Hlen|]).
  destruct s; [|discriminate Hlen].
  unfold exactly_alphanumeric in H6, H3. cbn in H6, H3, Hdot.
  rewrite ?andb_true_r in H6, H3. split_andb.
  repeat match goal with
         | H : alphanumeric _ = true |- _ => rewrite alphanumeric_class in H
         end.
  unfold re_match, security_pattern, with_line_feed.
  cbn [match_items take_class Nat.eqb andb truthy append].
  unfold class_dot. use_true.
  destruct (Ascii.eqb _ _); [|discriminate Hdot].
  use_true. repeat split; reflexivity.
Qed.

(** What the security pattern accepts: the shape of the specification, and
    also that shape followed by one line feed. *)
Lemma security_pattern_spec (s : string) :
  re_match security_pattern s = true <->
  exists core, security_shape core = true /\ (s = core \/ s = with_line_feed core).
Proof.
  split.
  - unfold re_match, security_pattern. cbn [match_items Nat.eqb andb].
    destruct (take_class class_d_a_z_A_Z 6 s) as [r1|] eqn:H1; [|discriminate].
    destruct (take_class class_dot 1 r1) as [r2|] eqn:H2; [|discriminate].
    destruct (take_class class_d_a_z_A_Z 3 r2) as [r3|] eqn:H3; [|discriminate].
    rewrite andb_true_r. intros Hd.
    apply take_class_inv in H1 as (p6 & -> & L6 & A6).
    apply take_class_inv in H2 as (p1 & -> & L1 & A1).
    apply take_class_inv in H3 as (p3 & -> & L3 & A3).
    exists (p6 ++ p1 ++ p3)%string.
    explode p6 L6. explode p1 L1. explode p3 L3.
    cbn in A6, A1, A3. rewrite ?andb_true_r in A6, A1, A3. split_andb.
    unfold class_dot in A1. split.
    + unfold security_shape, exactly_alphanumeric. cbn.
      rewrite !alphanumeric_class. use_true. reflexivity.
    + unfold with_line_feed.
      destruct (at_dollar_inv _ Hd) as [-> | ->]; [left | right]; reflexivity.
  - intros (core & Hc & [-> | ->]); now apply security_shape_matches.
Qed.

(** ** The strict class *)

(** The field validators hand back the value they are given. *)
Lemma validate_intervenant_id (s v : string) : validate_intervenant s = inr v -> v = s.
Proof. unfold validate_intervenant. destruct (_ || _); congruence. Qed.

Lemma validate_security_id (s v : string) : validate_security s = inr v -> v = s.
Proof. unfold validate_security. destruct (_ || _); congruence. Qed.

Lemma validate_quantity_id (q v : float) : validate_quantity q = inr v -> v = q.
Proof. unfold validate_quantity. destruct (PrimFloat.leb _ _); congruence. Qed.

Lemma check_field_inr {A : Type} (loc te tm : string) (validator : A -> string + A)
    (input : option A) (v : A) :
  check_field loc te tm validator input = inr v ->
  exists a, input = Some a /\ validator a = inr v.
Proof.
  unfold check_field. destruct input as [a|]; [|discriminate].
  destruct (validator a) eqn:Hv; [discriminate|].
  intros H. injection H as <-. now exists a.
Qed.

(** A successful construction copies the keyword arguments: dumping the
    object gives them back. *)
Lemma init_sound (d : OrderInitiation) (e : EnhancedOrderInitiation) :
  EnhancedOrderInitiation_init d = inr e -> model_dump (enhanced e) = d.
Proof.
  unfold EnhancedOrderInitiation_init.
  destruct (check_intervenant d) as [?|i] eqn:Hi;
  destruct (check_security_id d) as [?|s] eqn:Hs;
  destruct (check_orderType d) as [?|t] eqn:Ht;
  destruct (check_quantity d) as [?|q] eqn:Hq;
  destruct (check_orderClass d) as [?|c] eqn:Hc;
  try discriminate.
  intros H. injection H as <-.
  apply check_field_inr in Hi as (i0 & Ei & Hi), Hs as (s0 & Es & Hs),
    Ht as (t0 & Et & Ht), Hq as (q0 & Eq & Hq), Hc as (c0 & Ec & Hc).
  apply validate_intervenant_id in Hi. apply validate_security_id in Hs.
  apply validate_quantity_id in Hq.
  unfold no_validator in Ht, Hc. injection Ht as <-. injection Hc as <-. subst.
  destruct d; simpl in *. congruence.
Qed.

(** An object of the strict class passes the construction again and is
    rebuilt as it is. *)
Lemma init_model_dump (d : OrderInitiation) (e : EnhancedOrderInitiation) :
  EnhancedOrderInitiation_init d = inr e ->
  EnhancedOrderInitiation_init (model_dump (enhanced e)) = inr e.
Proof. intros H. now rewrite (init_sound _ _ H). Qed.

(** A draft that meets the six rules of the table is accepted. *)
Lemma rules_accepted (d : OrderInitiation) :
  all_rules_hold d = true ->
  exists e, EnhancedOrderInitiation_init d = inr e.
Proof.
  unfold all_rules_hold, rule_table. cbn [forallb]. rewrite !andb_true_iff.
  intros (Hi & Hs & Ht & Hq & Hc & _).
  destruct d as [oc i s t q c]. cbn [holds intervenant security_id orderType quantity orderClass] in *.
  destruct i as [i|]; [|discriminate]. destruct s as [s|]; [|discriminate].
  destruct t as [t|]; [|discriminate]. destruct q as [q|]; [|discriminate].
  destruct c as [c|]; [|discriminate].
  assert (Hi' : validate_intervenant i = inr i).
  { unfold validate_intervenant.
    assert (Hm : re_match intervenant_pattern i = true)
      by (apply intervenant_pattern_spec; exists i; auto).
    rewrite Hm. destruct i; [discriminate Hi|]. reflexivity. }
  assert (Hs' : validate_security s = inr s).
  { unfold validate_security. destruct (security_shape_matches _ Hs) as (-> & _ & ->). reflexivity. }
  assert (Hq' : validate_quantity q = inr q).
  { unfold validate_quantity. now rewrite positive_not_le_zero. }
  unfold EnhancedOrderInitiation_init, check_intervenant, check_security_id,
    check_orderType, check_quantity, check_orderClass, check_field.
  cbn [intervenant security_id orderType quantity orderClass order_confirmed].
  rewrite Hi', Hs', Hq'. unfold no_validator. eexists. reflexivity.
Qed.

(** ** The Order Validator *)

Lemma merge_no_update (state : ConversationState) : merge state no_update = state.
Proof. now destruct state. Qed.

(** C1. The Validator is claimed to promote a draft exactly when the six
    rules of the table hold. The draft of scenario 2 with a line feed after
    the intervenant has an intervenant of eight characters, the last of them
    not alphanumeric, so the intervenant rule fails; [validate_order] promotes
    it all the same, keeps the line feed in the promoted order and asks for no
    clarification, because [$] in the pattern also matches before a final
    line feed. *)
Theorem trailing_line_feed_promoted
    (chain : ValidationError -> string -> option (list string))
    (history : list ConversationMessage) (c : string) :
  holds intervenant_rule draft_trailing_line_feed = false /\
  all_rules_hold draft_trailing_line_feed = false /\
  validate_order chain (state_with history (plain draft_trailing_line_feed) c)
  = Returns
      (state_with history
         (enhanced (Enhanced.mk true (with_line_feed "AB12345") "123456.ABC" buy
                      100%float normal)) c)
      no_update [].
Proof. repeat split; vm_compute; reflexivity. Qed.

(** The same happens for a quantity that is not a number: [nan <= 0] is
    false, so [validate_quantity] lets it through, though it is not strictly
    greater than zero. *)
Remark nan_quantity_promoted
    (chain : ValidationError -> string -> option (list string))
    (history : list ConversationMessage) (c : string) :
  holds quantity_rule draft_nan_quantity = false /\
  validate_order chain (state_with history (plain draft_nan_quantity) c)
  = Returns
      (state_with history
         (enhanced (Enhanced.mk true "AB12345" "123456.ABC" buy nan normal)) c)
      no_update [].
Proof. split; vm_compute; reflexivity. Qed.

(** C2. For a draft that satisfies every rule of the table, [validate_order]
    stores an [EnhancedOrderInitiation] whose six fields are those of the
    draft, leaves the comment as it was, returns no key and calls no chain. *)
Theorem valid_draft_promoted_unchanged
    (chain : ValidationError -> string -> option (list string))
    (state : ConversationState) (order : AiAnalysis) :
  order_initiation state = Some order ->
  all_rules_hold (model_dump (orderInitiation order)) = true ->
  exists e,
    validate_order chain state
    = Returns (set_order_initiation state (mkAiAnalysis (enhanced e) (comment order)))
        no_update []
    /\ model_dump (enhanced e) = model_dump (orderInitiation order).
Proof.
  intros Ho Hr. destruct (rules_accepted _ Hr) as [e He].
  exists e. split.
  - unfold validate_order. now rewrite Ho, He.
  - now apply init_sound.
Qed.

Lemma valid_draft_promoted_unchanged_witness :
  exists e,
    validate_order echo_chain (state_with [human_turn] (plain scenario_2) "Thank you.")
    = Returns (state_with [human_turn] (enhanced e) "Thank you.") no_update []
    /\ model_dump (enhanced e) = scenario_2.
Proof.
  apply (valid_draft_promoted_unchanged echo_chain
           (state_with [human_turn] (plain scenario_2) "Thank you.")
           (mkAiAnalysis (plain scenario_2) "Thank you.")).
  - reflexivity.
  - vm_compute. reflexivity.
Defined.

(** C7. Validation is idempotent: when [validate_order] has promoted an order
    (it returned no key and called no chain), running it on the state it left
    promotes again to the very same state, whatever the clarification chain,
    and again calls no chain; that state holds an object of the strict class. *)
Theorem revalidation_is_identity
    (chain chain' : ValidationError -> string -> option (list string))
    (state state' : ConversationState) :
  validate_order chain state = Returns state' no_update [] ->
  validate_order chain' (merge state' no_update) = Returns state' no_update []
  /\ exists e c, order_initiation state' = Some (mkAiAnalysis (enhanced e) c).
Proof.
  unfold validate_order at 1. rewrite merge_no_update.
  destruct (order_initiation state) as [order|] eqn:Ho; [|discriminate].
  destruct (EnhancedOrderInitiation_init _) as [errs|e] eqn:He.
  - destruct (chain errs (comment order)) as [[|r rs]|]; discriminate.
  - intros H. injection H as <-. split.
    + unfold validate_order.
      cbn [set_order_initiation order_initiation orderInitiation comment].
      rewrite (init_model_dump _ _ He). reflexivity.
    + now exists e, (comment order).
Qed.

Lemma revalidation_is_identity_witness :
  validate_order (fixed_chain "Please give the security.")
    (merge (state_with [human_turn]
              (enhanced (Enhanced.mk true "AB12345" "123456.ABC" buy 100%float normal))
              "Thank you.") no_update)
  = Returns
      (state_with [human_turn]
         (enhanced (Enhanced.mk true "AB12345" "123456.ABC" buy 100%float normal))
         "Thank you.") no_update []
  /\ exists e c,
      order_initiation
        (state_with [human_turn]
           (enhanced (Enhanced.mk true "AB12345" "123456.ABC" buy 100%float normal))
           "Thank you.")
      = Some (mkAiAnalysis (enhanced e) c).
Proof.
  apply (revalidation_is_identity echo_chain (fixed_chain "Please give the security.")
           (state_with [human_turn] (plain scenario_2) "Thank you.")).
  vm_compute. reflexivity.
Defined.

(** C3, as amended. When the strict class rejects the order and the
    clarification chain answers, [validate_order] keeps the order object as
    it is and puts the first answer of the chain in place of the comment;
    nothing else in the state changes. The answer is whatever the chain
    gives for the errors and the former comment: it is not compared with
    that comment. *)
Theorem rejected_draft_gets_chain_answer
    (chain : ValidationError -> string -> option (list string))
    (state : ConversationState) (order : AiAnalysis)
    (e : ValidationError) (answer : string) (others : list string) :
  order_initiation state = Some order ->
  EnhancedOrderInitiation_init (model_dump (orderInitiation order)) = inl e ->
  chain e (comment order) = Some (answer :: others) ->
  let order' := mkAiAnalysis (orderInitiation order) answer in
  validate_order chain state
  = Returns (set_order_initiation state order')
      (mkState None None None (Some order') None)
      [validate_content_invoke e (comment order)].
Proof.
  intros Ho He Hc. unfold validate_order. now rewrite Ho, He, Hc.
Qed.

Lemma rejected_draft_gets_chain_answer_witness :
  validate_order (fixed_chain "Could you give the security?")
    (state_with [human_turn] (plain draft_two_violations) "Thank you.")
  = Returns
      (state_with [human_turn] (plain draft_two_violations) "Could you give the security?")
      (mkState None None None
         (Some (mkAiAnalysis (plain draft_two_violations) "Could you give the security?")) None)
      [validate_content_invoke
         [mkError "string_type" "security_id" "Input should be a valid string"]
         "Thank you."].
Proof.
  apply (rejected_draft_gets_chain_answer (fixed_chain "Could you give the security?")
           (state_with [human_turn] (plain draft_two_violations) "Thank you.")
           (mkAiAnalysis (plain draft_two_violations) "Thank you.")
           [mkError "string_type" "security_id" "Input should be a valid string"]
           "Could you give the security?" []).
  - reflexivity.
  - vm_compute. reflexivity.
  - reflexivity.
Defined.

(** C3 as stated fails: the empty draft violates four rules, and with a
    chain that answers with the comment it was given the Validator returns
    the draft with the comment it came with. *)
Lemma comment_may_stay_the_same :
  let order := mkAiAnalysis (plain draft_empty) "Which order do you want to place?" in
  let state := state_with [human_turn] (plain draft_empty) "Which order do you want to place?" in
  all_rules_hold draft_empty = false /\
  ~ (exists state' update calls order',
        validate_order echo_chain state = Returns state' update calls
        /\ order_initiation (merge state' update) = Some order'
        /\ comment order' <> comment order
        /\ model_dump (orderInitiation order') = model_dump (orderInitiation order)).
Proof.
  split; [vm_compute; reflexivity|].
  intros (state' & update & calls & order' & Hv & Ho & Hneq & _).
  vm_compute in Hv. injection Hv as <- <- <-.
  vm_compute in Ho. injection Ho as <-. now apply Hneq.
Qed.

(** C8. Every violated rule is claimed to reach the clarification chain. The
    draft with a line feed after the intervenant and no security violates
    the intervenant rule and the security rule; the errors [validate_order]
    hands to the chain, with the prior comment, name the security only. *)
Theorem line_feed_violation_not_reported
    (chain : ValidationError -> string -> option (list string))
    (history : list ConversationMessage) (c : string) :
  violated_rules draft_two_violations = [intervenant_rule; security_id_rule] /\
  exists e,
    calls_of (validate_order chain (state_with history (plain draft_two_violations) c))
    = [validate_content_invoke e c]
    /\ reported_fields e = ["security_id"]
    /\ ~ In (field_of intervenant_rule) (reported_fields e).
Proof.
  split; [vm_compute; reflexivity|].
  exists [mkError "string_type" "security_id" "Input should be a valid string"].
  split; [|split].
  - unfold validate_order. cbn -[EnhancedOrderInitiation_init].
    replace (EnhancedOrderInitiation_init draft_two_violations)
      with (@inl ValidationError EnhancedOrderInitiation
              [mkError "string_type" "security_id" "Input should be a valid string"])
      by (vm_compute; reflexivity).
    destruct (chain _ c) as [[|r rs]|]; reflexivity.
  - reflexivity.
  - cbn. intros [H|[]]. discriminate H.
Qed.

(** *** How far the errors handed to the chain cover the rule table *)

Lemma with_line_feed_ends (s : string) : ends_with_line_feed (with_line_feed s) = true.
Proof.
  unfold with_line_feed. induction s as [|c s IH]; [reflexivity|].
  simpl. destruct (s ++ String LF "")%string eqn:E; [|exact IH].
  destruct s; discriminate E.
Qed.

(** A float that is neither strictly positive nor a NaN is [<= 0]. *)
Lemma not_positive_le_zero (q : float) :
  PrimFloat.ltb 0%float q = false ->
  PrimFloat.is_nan q = false ->
  PrimFloat.leb q 0%float = true.
Proof.
  unfold PrimFloat.is_nan. rewrite ltb_spec, leb_spec, eqb_spec.
  unfold SFltb, SFleb, SFeqb.
  change (Prim2SF 0%float) with (S754_zero false).
  destruct (Prim2SF q) as [s|s| |s m e]; simpl; try destruct s; simpl;
    intros; try discriminate; reflexivity.
Qed.

(** The errors of a rejected construction are those of the five field
    checks, in the order of the fields: none is dropped. *)
Lemma init_errors (d : OrderInitiation) (e : ValidationError) :
  EnhancedOrderInitiation_init d = inl e -> e = field_errors d.
Proof.
  unfold EnhancedOrderInitiation_init, field_errors.
  destruct (check_intervenant d), (check_security_id d), (check_orderType d),
    (check_quantity d), (check_orderClass d); intros H;
    first [discriminate H | injection H as <-; reflexivity].
Qed.

(** A construction succeeds only when no field check gives an error. *)
Lemma init_no_errors (d : OrderInitiation) (e : EnhancedOrderInitiation) :
  EnhancedOrderInitiation_init d = inr e -> field_errors d = [].
Proof.
  unfold EnhancedOrderInitiation_init, field_errors.
  destruct (check_intervenant d), (check_security_id d), (check_orderType d),
    (check_quantity d), (check_orderClass d); intros H;
    first [discriminate H | reflexivity].
Qed.

Lemma check_field_rejects {A : Type} (loc te tm : string) (validator : A -> string + A)
    (input : option A) :
  (forall a, input = Some a -> exists m, validator a = inl m) ->
  In loc (reported_fields (errors_of (check_field loc te tm validator input))).
Proof.
  intros H. unfold check_field. destruct input as [a|]; [|now left].
  destruct (H a eq_refl) as [m ->]. now left.
Qed.

(** The two gaps of the field validators set aside (an identifier that ends
    with a line feed, a quantity that is a NaN), a violated rule of the table
    makes the check of its field fail. *)
Lemma violation_has_error (d : OrderInitiation) (r : Rule) :
  (forall s, intervenant d = Some s -> ends_with_line_feed s = false) ->
  (forall s, security_id d = Some s -> ends_with_line_feed s = false) ->
  (forall q, quantity d = Some q -> PrimFloat.is_nan q = false) ->
  holds r d = false ->
  In (field_of r) (reported_fields (field_errors d)).
Proof.
  intros Hi Hs Hq Hr.
  unfold reported_fields, field_errors. rewrite !map_app, !in_app_iff.
  destruct r; cbn [holds field_of] in *.
  - left. apply check_field_rejects. intros s Es. rewrite Es in Hr.
    unfold validate_intervenant.
    destruct (re_match intervenant_pattern s) eqn:Hm; [|rewrite orb_true_r; eauto].
    apply intervenant_pattern_spec in Hm as (core & Hc & [-> | ->]).
    + congruence.
    + specialize (Hi _ Es). rewrite with_line_feed_ends in Hi. discriminate Hi.
  - right; left. apply check_field_rejects. intros s Es. rewrite Es in Hr.
    unfold validate_security.
    destruct (re_match security_pattern s) eqn:Hm; [|rewrite orb_true_r; eauto].
    apply security_pattern_spec in Hm as (core & Hc & [-> | ->]).
    + congruence.
    + specialize (Hs _ Es). rewrite with_line_feed_ends in Hs. discriminate Hs.
  - right; right; left. apply check_field_rejects. intros t Et. rewrite Et in Hr.
    destruct t; discriminate Hr.
  - right; right; right; left. apply check_field_rejects. intros q Eq. rewrite Eq in Hr.
    unfold validate_quantity. rewrite (not_positive_le_zero q Hr (Hq _ Eq)). eauto.
  - right; right; right; right. apply check_field_rejects. intros c Ec. rewrite Ec in Hr.
    destruct c; discriminate Hr.
  - destruct (order_confirmed d); discriminate Hr.
Qed.

(** Hence, outside these two gaps, every violated rule of the table is among
    the errors handed to the clarification chain, not only the first. *)
Lemma violations_reported_but_for_line_feed_and_nan
    (d : OrderInitiation) (e : ValidationError) (r : Rule) :
  (forall s, intervenant d = Some s -> ends_with_line_feed s = false) ->
  (forall s, security_id d = Some s -> ends_with_line_feed s = false) ->
  (forall q, quantity d = Some q -> PrimFloat.is_nan q = false) ->
  EnhancedOrderInitiation_init d = inl e ->
  holds r d = false ->
  In (field_of r) (reported_fields e).
Proof.
  intros Hi Hs Hq He Hr. rewrite (init_errors _ _ He).
  now apply violation_has_error.
Qed.

(** And, outside these two gaps, the strict class accepts a draft exactly
    when the six rules of the table hold. *)
Lemma accepted_iff_rules_but_for_line_feed_and_nan (d : OrderInitiation) :
  (forall s, intervenant d = Some s -> ends_with_line_feed s = false) ->
  (forall s, security_id d = Some s -> ends_with_line_feed s = false) ->
  (forall q, quantity d = Some q -> PrimFloat.is_nan q = false) ->
  (exists e, EnhancedOrderInitiation_init d = inr e) <-> all_rules_hold d = true.
Proof.
  intros Hi Hs Hq. split; [|apply rules_accepted].
  intros [e He]. apply init_no_errors in He.
  unfold all_rules_hold. apply forallb_forall. intros r _.
  destruct (holds r d) eqn:Hr; [reflexivity|].
  pose proof (violation_has_error d r Hi Hs Hq Hr) as Hin.
  rewrite He in Hin. destruct Hin.
Qed.

(** The scenarios of the specification with one malformed field: the
    violated rule and the reported field agree. *)
Example scenario_3_reports_quantity :
  violated_rules scenario_3 = [quantity_rule]
  /\ reported_fields (field_errors scenario_3) = ["quantity"].
Proof. split; vm_compute; reflexivity. Qed.

Example scenario_4_reports_security :
  violated_rules scenario_4 = [security_id_rule]
  /\ reported_fields (field_errors scenario_4) = ["security_id"].
Proof. split; vm_compute; reflexivity. Qed.

Example empty_draft_reports_four_fields :
  violated_rules draft_empty
  = [intervenant_rule; security_id_rule; order_type_rule; quantity_rule]
  /\ reported_fields (field_errors draft_empty)
     = ["intervenant"; "security_id"; "orderType"; "quantity"].
Proof. split; vm_compute; reflexivity. Qed.

(** ** The Message Normalizer *)

(** No field of a message is the sentinel. *)
Lemma payload_never_undefined (p : option string) : is_undefined (object_of p) = false.
Proof. now destruct p. Qed.

(** What one turn contributes: an AI turn its payload and its data, and an
    exception when it has no payload; any other turn its data. *)
Lemma categorize_message_turn (m : ConversationMessage) :
  categorize_message [] m
  = match data_type m, payload m with
    | AI, Some p => inr [AIMessage p; AIMessage (data m)]
    | AI, None => inl ContentValidationError
    | _, _ => inr [AIMessage (data m)]
    end.
Proof.
  unfold categorize_message. rewrite payload_never_undefined.
  destruct (data_type m); try reflexivity. now destruct (payload m).
Qed.

Lemma categorize_message_acc (acc : list BaseMessage) (m : ConversationMessage) :
  categorize_message acc m
  = match categorize_message [] m with
    | inr l => inr (acc ++ l)
    | inl exc => inl exc
    end.
Proof.
  unfold categorize_message. rewrite payload_never_undefined.
  destruct (DataType_eqb (data_type m) AI); cbn; [|reflexivity].
  destruct (payload m); cbn; [|reflexivity]. now rewrite <- app_assoc.
Qed.

Lemma categorize_loop_acc (ms : list ConversationMessage) (acc : list BaseMessage) :
  categorize_loop ms acc
  = match categorize_loop ms [] with
    | inr l => inr (acc ++ l)
    | inl exc => inl exc
    end.
Proof.
  revert acc. induction ms as [|m ms IH]; intros acc; cbn [categorize_loop].
  - now rewrite app_nil_r.
  - rewrite (categorize_message_acc acc m).
    destruct (categorize_message [] m) as [exc|l]; [reflexivity|].
    rewrite (IH (acc ++ l)), (IH l).
    destruct (categorize_loop ms []); [reflexivity | now rewrite app_assoc].
Qed.

(** The loop runs turn after turn and stops at the first exception. *)
Lemma categorize_messages_cons (m : ConversationMessage) (ms : list ConversationMessage) :
  categorize_messages (m :: ms)
  = match categorize_message [] m with
    | inl exc => inl exc
    | inr l =>
        match categorize_messages ms with
        | inr l' => inr (l ++ l')
        | inl exc => inl exc
        end
    end.
Proof.
  unfold categorize_messages. cbn [categorize_loop].
  destruct (categorize_message [] m) as [exc|l]; [reflexivity|].
  apply categorize_loop_acc.
Qed.

(** The loop returns exactly on the histories whose AI turns all carry a
    payload, and then with the messages of the turns one after the other. *)
Lemma categorize_messages_returns (ms : list ConversationMessage) (out : list BaseMessage) :
  categorize_messages ms = inr out <->
  Forall (fun m => data_type m = AI -> payload m <> None) ms
  /\ out = flat_map normalizer_rule_ai_only ms.
Proof.
  revert out. induction ms as [|m ms IH]; intros out.
  - cbn. split.
    + intros H. injection H as <-. now split.
    + intros [_ ->]. reflexivity.
  - rewrite categorize_messages_cons, categorize_message_turn.
    cbn [flat_map]. unfold normalizer_rule_ai_only at 1.
    assert (Hcons : forall l : list BaseMessage,
               (match categorize_messages ms with
                | inr l' => inr (l ++ l')
                | inl exc => inl exc
                end = inr out :> Exception + list BaseMessage) <->
               Forall (fun m => data_type m = AI -> payload m <> None) ms
               /\ out = l ++ flat_map normalizer_rule_ai_only ms).
    { intros l. destruct (categorize_messages ms) as [exc|l'] eqn:Hl.
      - split; [discriminate|]. intros [Hall _].
        pose proof (proj2 (IH _) (conj Hall eq_refl)) as H'.
        discriminate H'.
      - destruct (proj1 (IH l') eq_refl) as [Hall ->]. split.
        + intros H. injection H as <-. now split.
        + intros [_ ->]. reflexivity. }
    destruct (data_type m) eqn:Ht; [| |destruct (payload m) eqn:Hp].
    + rewrite Hcons. split; intros [Hall ->]; split; try reflexivity.
      * constructor; [congruence|exact Hall].
      * now inversion Hall.
    + rewrite Hcons. split; intros [Hall ->]; split; try reflexivity.
      * constructor; [congruence|exact Hall].
      * now inversion Hall.
    + rewrite Hcons. split; intros [Hall ->]; split; try reflexivity.
      * constructor; [congruence|exact Hall].
      * now inversion Hall.
    + split; [discriminate|]. intros [Hall _].
      inversion Hall as [|? ? Hm _]; subst. now destruct (Hm Ht).
Qed.

(** One AI turn without a payload anywhere in the history makes it raise. *)
Lemma categorize_messages_raises (ms : list ConversationMessage) :
  Exists (fun m => data_type m = AI /\ payload m = None) ms ->
  categorize_messages ms = inl ContentValidationError.
Proof.
  induction ms as [|m ms IH]; intros H; [inversion H|].
  rewrite categorize_messages_cons, categorize_message_turn.
  inversion H as [? ? [Ht Hp]|? ? Hrest]; subst.
  - now rewrite Ht, Hp.
  - rewrite (IH Hrest).
    destruct (data_type m); try reflexivity. now destruct (payload m).
Qed.

(** C5 as stated fails: for a Human turn that carries a payload the rule
    gives the payload text and then the data text, the code the data text
    only. *)
Lemma human_payload_not_emitted :
  exists out,
    categorize_messages [human_turn_with_payload] = inr out
    /\ map content out <> flat_map normalizer_rule [human_turn_with_payload].
Proof. eexists. split; [reflexivity|]. vm_compute. discriminate. Qed.

(** C5, as amended. On a history whose AI turns all carry a payload,
    [categorize_order] emits, in the order of the conversation, for an AI
    turn the payload text and then the data text, and for a Human or System
    turn the data text alone, payload or not; an empty history gives no
    message. *)
Theorem normalizer_emits_in_order (state : ConversationState) (ms : list ConversationMessage) :
  conversation_messages state = Some ms ->
  Forall (fun m => data_type m = AI -> payload m <> None) ms ->
  categorize_order state
  = Returns state (mkState (Some (flat_map normalizer_rule_ai_only ms)) None None None None) []
  /\ categorize_messages [] = inr [].
Proof.
  intros Hs Hall. split; [|reflexivity].
  unfold categorize_order. rewrite Hs.
  now rewrite (proj2 (categorize_messages_returns ms _) (conj Hall eq_refl)).
Qed.

Lemma normalizer_emits_in_order_witness :
  categorize_order (mkState None (Some [human_turn_with_payload; ai_turn_with_payload]) None None None)
  = Returns (mkState None (Some [human_turn_with_payload; ai_turn_with_payload]) None None None)
      (mkState
         (Some (flat_map normalizer_rule_ai_only [human_turn_with_payload; ai_turn_with_payload]))
         None None None None) []
  /\ categorize_messages [] = inr [].
Proof.
  apply (normalizer_emits_in_order
           (mkState None (Some [human_turn_with_payload; ai_turn_with_payload]) None None None)
           [human_turn_with_payload; ai_turn_with_payload]).
  - reflexivity.
  - repeat constructor; simpl; discriminate.
Defined.

(** C9. Whatever the [data_type] of the turns, every message the loop of
    [categorize_order] emits is an [AIMessage]: the messages it returns are
    all of type ai, and when it raises it emits none. *)
Theorem every_model_message_is_ai (ms : list ConversationMessage) :
  match categorize_messages ms with
  | inr out => Forall (fun m => message_type m = "ai") out
  | inl _ => True
  end.
Proof.
  destruct (categorize_messages ms) as [exc|out] eqn:H; [exact I|].
  apply categorize_messages_returns in H as [_ ->].
  induction ms as [|m ms IH]; simpl; [constructor|].
  apply Forall_app. split; [|exact IH].
  unfold normalizer_rule_ai_only.
  destruct (data_type m); [| |destruct (payload m)]; repeat constructor.
Qed.

(** C10 as stated fails: for the history made of one AI turn without a
    payload the loop returns no messages at all, so no message whose content
    is [None] is emitted. *)
Lemma ai_turn_without_payload_emits_nothing :
  ~ (exists out, categorize_messages [ai_turn_without_payload] = inr out).
Proof. intros [out H]. vm_compute in H. discriminate H. Qed.

(** C10, as amended. For an AI turn the payload branch is always taken,
    since no payload is the sentinel; when the payload of an AI turn is
    [None] the message built on it is refused, and [categorize_order]
    raises that exception, whatever stands before and after the turn in
    the history. It calls no chain and returns no key. *)
Theorem ai_turn_without_payload_raises
    (state : ConversationState) (before after : list ConversationMessage)
    (m : ConversationMessage) :
  conversation_messages state = Some (before ++ m :: after) ->
  data_type m = AI ->
  payload m = None ->
  is_undefined (object_of (payload m)) = false
  /\ categorize_order state = Raises ContentValidationError [].
Proof.
  intros Hs Hd Hp. split; [apply payload_never_undefined|].
  unfold categorize_order. rewrite Hs.
  rewrite categorize_messages_raises; [reflexivity|].
  apply Exists_exists. exists m. split; [|now split].
  apply in_or_app. right. now left.
Qed.

Lemma ai_turn_without_payload_raises_witness :
  is_undefined (object_of (payload ai_turn_without_payload)) = false
  /\ categorize_order
       (inputs_of ([human_turn] ++ ai_turn_without_payload :: [human_turn_with_payload]))
     = Raises ContentValidationError [].
Proof.
  apply (ai_turn_without_payload_raises
           (inputs_of ([human_turn] ++ ai_turn_without_payload :: [human_turn_with_payload]))
           [human_turn] [human_turn_with_payload] ai_turn_without_payload);
    reflexivity.
Defined.

(** ** The Response Composer *)

(** C4. On a history of length n, [create_response] returns a history of
    length n+1 whose first n entries are the input history and whose last
    entry is the AI turn carrying the comment of the outcome as data and the
    dumped order object as an OrderInitiation payload; it touches nothing in
    the state and calls no chain. *)
Theorem composer_appends_one_turn
    (dump : OrderInstance -> string)
    (state : ConversationState) (order : AiAnalysis) (history : list ConversationMessage) :
  order_initiation state = Some order ->
  conversation_messages state = Some history ->
  exists out,
    create_response dump state = Returns state (mkState None (Some out) None None None) []
    /\ length out = S (length history)
    /\ firstn (length history) out = history
    /\ nth_error out (length history)
       = Some (mkConversationMessage AI (comment order) (Some OrderInitiationPayload)
                 (Some (dump (orderInitiation order)))).
Proof.
  intros Ho Hh. unfold create_response. rewrite Ho, Hh.
  eexists. split; [reflexivity|]. split; [|split].
  - rewrite length_app. simpl. lia.
  - rewrite firstn_app, Nat.sub_diag, firstn_all. simpl. apply app_nil_r.
  - rewrite nth_error_app2 by lia. now rewrite Nat.sub_diag.
Qed.

Lemma composer_appends_one_turn_witness :
  exists out,
    create_response sample_dump (state_with [human_turn] (plain scenario_2) "Thank you.")
    = Returns (state_with [human_turn] (plain scenario_2) "Thank you.")
        (mkState None (Some out) None None None) []
    /\ length out = S (length [human_turn])
    /\ firstn (length [human_turn]) out = [human_turn]
    /\ nth_error out (length [human_turn])
       = Some (mkConversationMessage AI "Thank you." (Some OrderInitiationPayload)
                 (Some (sample_dump (plain scenario_2)))).
Proof.
  apply (composer_appends_one_turn sample_dump
           (state_with [human_turn] (plain scenario_2) "Thank you.")
           (mkAiAnalysis (plain scenario_2) "Thank you.") [human_turn]); reflexivity.
Defined.

(** ** The inbound interface *)




(** A field of the wrong type is what the interface does reject. *)
Remark unknown_data_type_rejected
    (extraction : list BaseMessage -> option (list AiAnalysis))
    (clarification : ValidationError -> string -> option (list string))
    (dump : OrderInstance -> string) :
  load_default_values extraction clarification dump
    (JArray [JObject [("data_type", JString "Robot"); ("data", JString "buy 100")]])
  = unprocessable
      [(0, mkError "literal_error" "data_type" "Input should be 'Human', 'System' or 'AI'")].
Proof. reflexivity. Qed.


(** * Further properties of the code *)

(** ** The field validators of [EnhancedOrderInitiation] *)

Lemma is_nan_Prim2SF (q : float) : PrimFloat.is_nan q = true -> Prim2SF q = S754_nan.
Proof.
  unfold PrimFloat.is_nan. rewrite eqb_spec. unfold SFeqb.
  destruct (Prim2SF q) as [s|s| |s m e]; simpl; try (destruct s; discriminate);
    [reflexivity|].
  destruct s; rewrite BinInt.Z.compare_refl, BinPos.Pos.compare_cont_refl; discriminate.
Qed.

Lemma nan_not_le_zero (q : float) :
  PrimFloat.is_nan q = true -> PrimFloat.leb q 0%float = false.
Proof.
  intros H. rewrite leb_spec, (is_nan_Prim2SF _ H). reflexivity.
Qed.

(** X1. [validate_intervenant] returns its argument exactly for the strings
    made of seven characters of [[0-9a-zA-Z]], alone or followed by one line
    feed; every other string, the empty one included, raises. *)
Theorem validate_intervenant_accepts (s : string) :
  validate_intervenant s = inr s <->
  exists core, exactly_alphanumeric 7 core = true /\ (s = core \/ s = with_line_feed core).
Proof.
  rewrite <- intervenant_pattern_spec. unfold validate_intervenant. split.
  - destruct (re_match intervenant_pattern s); [reflexivity|].
    rewrite orb_true_r. discriminate.
  - intros Hm. rewrite Hm.
    apply intervenant_pattern_spec in Hm as (core & Hc & Hs).
    apply andb_true_iff in Hc as [Hlen _]. apply Nat.eqb_eq in Hlen.
    destruct core; [discriminate Hlen|].
    destruct Hs as [-> | ->]; reflexivity.
Qed.

(** X2. [validate_security] returns its argument exactly for the strings
    made of six characters of [[0-9a-zA-Z]], a dot and three such characters,
    alone or followed by one line feed. *)
Theorem validate_security_accepts (s : string) :
  validate_security s = inr s <->
  exists core, security_shape core = true /\ (s = core \/ s = with_line_feed core).
Proof.
  rewrite <- security_pattern_spec. unfold validate_security. split.
  - destruct (re_match security_pattern s); [reflexivity|].
    rewrite orb_true_r. discriminate.
  - intros Hm. rewrite Hm.
    apply security_pattern_spec in Hm as (core & Hc & Hs).
    destruct (security_shape_matches _ Hc) as (_ & _ & Ht).
    destruct core; [discriminate Ht|].
    destruct Hs as [-> | ->]; reflexivity.
Qed.

(** X3. [validate_quantity] returns its argument exactly for the floats that
    are strictly positive (plus infinity included) or not a number; zero,
    minus zero and the negative floats raise. *)
Theorem validate_quantity_accepts (q : float) :
  validate_quantity q = inr q <->
  PrimFloat.ltb 0%float q = true \/ PrimFloat.is_nan q = true.
Proof.
  unfold validate_quantity. split.
  - destruct (PrimFloat.leb q 0%float) eqn:Hle; [discriminate|]. intros _.
    destruct (PrimFloat.ltb 0%float q) eqn:Hlt; [now left|]. right.
    destruct (PrimFloat.is_nan q) eqn:Hn; [reflexivity|].
    rewrite (not_positive_le_zero _ Hlt Hn) in Hle. discriminate Hle.
  - intros [H | H].
    + now rewrite positive_not_le_zero.
    + now rewrite nan_not_le_zero.
Qed.

Example validate_quantity_edges :
  validate_quantity 0%float = inl "Quantity must be a positive number."
  /\ validate_quantity (-0)%float = inl "Quantity must be a positive number."
  /\ validate_quantity neg_infinity = inl "Quantity must be a positive number."
  /\ validate_quantity infinity = inr infinity
  /\ validate_quantity nan = inr nan.
Proof. repeat split; vm_compute; reflexivity. Qed.

(** ** The loop of [categorize_order] *)

(** X5. When the loop returns, it has emitted one message per turn and one
    more per AI turn: the number of model messages is the number of turns
    plus the number of AI turns, so between n and 2n for n turns. *)
Theorem categorize_messages_length (ms : list ConversationMessage) (out : list BaseMessage) :
  categorize_messages ms = inr out ->
  length out = length ms + length (filter is_AI ms)
  /\ length ms <= length out <= 2 * length ms.
Proof.
  intros Hout. apply categorize_messages_returns in Hout as [Hall ->].
  assert (H : length (flat_map normalizer_rule_ai_only ms)
              = length ms + length (filter is_AI ms)).
  { induction Hall as [|m ms Hm _ IH]; [reflexivity|].
    cbn [flat_map filter]. rewrite length_app, IH.
    unfold normalizer_rule_ai_only, is_AI.
    destruct (data_type m); simpl; try lia.
    destruct (payload m); [simpl; lia | now destruct Hm]. }
  split; [exact H|]. rewrite H.
  pose proof (filter_length_le is_AI ms). lia.
Qed.

Lemma categorize_messages_length_witness :
  length [AIMessage "buy 100"; AIMessage "{}"; AIMessage "Which security?"]
  = length [human_turn_with_payload; ai_turn_with_payload]
    + length (filter is_AI [human_turn_with_payload; ai_turn_with_payload])
  /\ length [human_turn_with_payload; ai_turn_with_payload]
     <= length [AIMessage "buy 100"; AIMessage "{}"; AIMessage "Which security?"]
     <= 2 * length [human_turn_with_payload; ai_turn_with_payload].
Proof.
  apply (categorize_messages_length [human_turn_with_payload; ai_turn_with_payload]).
  reflexivity.
Defined.

(** X6. The loop reads [data_type] and [data] of every turn and [payload] of
    the AI turns, nothing else: histories that agree on these give the same
    result, messages or exception, whatever their [payload_type]s and the
    payloads of their Human and System turns. *)
Theorem categorize_messages_reads (ms ms' : list ConversationMessage) :
  Forall2 same_for_categorize ms ms' ->
  categorize_messages ms = categorize_messages ms'.
Proof.
  intros H.
  induction H as [|m m' ms ms' (Ht & Hd & Hp) _ IH]; [reflexivity|].
  rewrite !categorize_messages_cons, !categorize_message_turn, IH.
  rewrite <- Ht, <- Hd.
  destruct (data_type m); try reflexivity. now rewrite (Hp eq_refl).
Qed.

Lemma categorize_messages_reads_witness :
  categorize_messages [human_turn_with_payload; ai_turn_with_payload]
  = categorize_messages
      [mkConversationMessage Human "buy 100" (Some FinancialPosition) None;
       mkConversationMessage AI "Which security?" None (Some "{}")].
Proof.
  apply categorize_messages_reads.
  repeat constructor; cbn; discriminate.
Defined.

(** X18. When the loop returns, the data text of every turn is among the
    model messages, and these data messages stand in the order of the
    turns: the loop drops no turn and swaps none. *)
Theorem categorize_messages_keeps_data (ms : list ConversationMessage) (out : list BaseMessage) :
  categorize_messages ms = inr out ->
  subsequence (map (fun m => AIMessage (data m)) ms) out.
Proof.
  intros Hout. apply categorize_messages_returns in Hout as [_ ->].
  induction ms as [|m ms IH]; [constructor|].
  cbn [map flat_map].
  unfold normalizer_rule_ai_only at 1.
  destruct (data_type m); [| |destruct (payload m)]; cbn [app];
    repeat first [apply subsequence_keep; exact IH | apply subsequence_skip].
Qed.

Lemma categorize_messages_keeps_data_witness :
  subsequence
    (map (fun m => AIMessage (data m)) [human_turn_with_payload; ai_turn_with_payload])
    [AIMessage "buy 100"; AIMessage "{}"; AIMessage "Which security?"].
Proof.
  apply (categorize_messages_keeps_data [human_turn_with_payload; ai_turn_with_payload]).
  reflexivity.
Defined.

(** The loop raises nothing but the exception of a refused content. *)
Lemma categorize_messages_never_key_error (ms : list ConversationMessage) (exc : Exception) :
  categorize_messages ms = inl exc -> forall key, exc <> KeyError key.
Proof.
  induction ms as [|m ms IH]; [discriminate|].
  rewrite categorize_messages_cons, categorize_message_turn.
  destruct (categorize_messages ms) as [exc'|l].
  - intros H key.
    destruct (data_type m); [| |destruct (payload m)];
      injection H as <-; first [now apply IH | discriminate].
  - intros H key.
    destruct (data_type m); [| |destruct (payload m)];
      first [discriminate H | injection H as <-; discriminate].
Qed.

(** ** The graph and the endpoint *)

(** The whole run of the graph on the inputs of a request, by cases on the
    result of the loop of [categorize_order], on what the two chains answer
    and on the verdict of the strict class. *)
Lemma graph_invoke_cases
    (extraction : list BaseMessage -> option (list AiAnalysis))
    (clarification : ValidationError -> string -> option (list string))
    (dump : OrderInstance -> string)
    (ms : list ConversationMessage) :
  graph_invoke extraction clarification dump (inputs_of ms) =
  let turn c o := mkConversationMessage AI c (Some OrderInitiationPayload) (Some (dump o)) in
  match categorize_messages ms with
  | inl exc => Raises exc []
  | inr msgs =>
      let call := create_content_invoke msgs in
      match extraction msgs with
      | None => Raises ChainError [call]
      | Some [] => Raises IndexError [call]
      | Some (a :: _) =>
          match EnhancedOrderInitiation_init (model_dump (orderInitiation a)) with
          | inr e =>
              let order := mkAiAnalysis (enhanced e) (comment a) in
              Returns (mkState (Some msgs) (Some ms) None (Some order) None)
                (mkState None (Some (ms ++ [turn (comment a) (enhanced e)])) None None None)
                [call]
          | inl errs =>
              let call' := validate_content_invoke errs (comment a) in
              match clarification errs (comment a) with
              | None => Raises ChainError [call; call']
              | Some [] => Raises IndexError [call; call']
              | Some (answer :: _) =>
                  let order := mkAiAnalysis (orderInitiation a) answer in
                  Returns (mkState (Some msgs) (Some ms) None (Some order) None)
                    (mkState None (Some (ms ++ [turn answer (orderInitiation a)])) None None None)
                    [call; call']
              end
          end
      end
  end.
Proof.
  unfold graph_invoke, then_node, inputs_of, categorize_order, create_order.
  cbn -[categorize_messages EnhancedOrderInitiation_init model_dump validate_order
        create_response].
  destruct (categorize_messages ms) as [exc|msgs]; [reflexivity|].
  cbn -[EnhancedOrderInitiation_init model_dump validate_order create_response].
  destruct (extraction msgs) as [[|a rest]|]; try reflexivity.
  unfold validate_order.
  cbn -[EnhancedOrderInitiation_init model_dump create_response].
  destruct (EnhancedOrderInitiation_init (model_dump (orderInitiation a))) as [errs|e].
  - destruct (clarification errs (comment a)) as [[|answer others]|]; reflexivity.
  - reflexivity.
Qed.

Lemma load_default_values_accepted
    (extraction : list BaseMessage -> option (list AiAnalysis))
    (clarification : ValidationError -> string -> option (list string))
    (dump : OrderInstance -> string)
    (body : JSON) (ms : list ConversationMessage) :
  validate_message_list body = inr ms ->
  load_default_values extraction clarification dump body =
  match graph_invoke extraction clarification dump (inputs_of ms) with
  | Raises e _ => server_error e
  | Returns state update _ =>
      match conversation_messages (merge state update) with
      | Some result => ok result
      | None => server_error (KeyError "conversation_messages")
      end
  end.
Proof. intros H. unfold load_default_values. now rewrite H. Qed.

(** X7. A request whose history is accepted and gives model messages, for
    which the extraction chain gives at least one candidate and whose first
    candidate passes the strict class, is answered with the history followed
    by one AI turn: its data is the comment of that candidate and its payload
    the dump of the promoted order. The other candidates are ignored and the
    clarification chain is not called. *)
Theorem request_with_valid_order
    (extraction : list BaseMessage -> option (list AiAnalysis))
    (clarification : ValidationError -> string -> option (list string))
    (dump : OrderInstance -> string)
    (body : JSON) (ms : list ConversationMessage) (msgs : list BaseMessage)
    (a : AiAnalysis) (others : list AiAnalysis) (e : EnhancedOrderInitiation) :
  validate_message_list body = inr ms ->
  categorize_messages ms = inr msgs ->
  extraction msgs = Some (a :: others) ->
  EnhancedOrderInitiation_init (model_dump (orderInitiation a)) = inr e ->
  load_default_values extraction clarification dump body
  = ok (ms ++ [mkConversationMessage AI (comment a) (Some OrderInitiationPayload)
                 (Some (dump (enhanced e)))])
  /\ calls_of (graph_invoke extraction clarification dump (inputs_of ms))
     = [create_content_invoke msgs].
Proof.
  intros Hb Hm Hx He. rewrite (load_default_values_accepted _ _ _ _ _ Hb).
  rewrite graph_invoke_cases. cbv zeta. rewrite Hm, Hx, He. split; reflexivity.
Qed.

Lemma request_with_valid_order_witness :
  load_default_values
    (constant_extraction (mkAiAnalysis (plain scenario_2) "Thank you."))
    echo_chain sample_dump (JArray (map json_of_message [human_turn]))
  = ok ([human_turn]
        ++ [mkConversationMessage AI "Thank you." (Some OrderInitiationPayload)
              (Some (sample_dump
                       (enhanced (Enhanced.mk true "AB12345" "123456.ABC" buy
                                    100%float normal))))])
  /\ calls_of (graph_invoke
                 (constant_extraction (mkAiAnalysis (plain scenario_2) "Thank you."))
                 echo_chain sample_dump (inputs_of [human_turn]))
     = [create_content_invoke [AIMessage "AB12345 100"]].
Proof.
  apply (request_with_valid_order _ _ _ _ [human_turn] [AIMessage "AB12345 100"]
           (mkAiAnalysis (plain scenario_2) "Thank you.") []).
  - reflexivity.
  - reflexivity.
  - reflexivity.
  - vm_compute. reflexivity.
Defined.

(** X8. A request whose history gives model messages, whose first candidate
    is rejected by the strict class and for which the clarification chain
    answers is answered with the history followed by one AI turn: its data
    is the first answer of the chain and its payload the dump of the
    candidate as extracted. The chain was called once, after the extraction,
    with the errors and the extractor's comment. *)
Theorem request_with_rejected_order
    (extraction : list BaseMessage -> option (list AiAnalysis))
    (clarification : ValidationError -> string -> option (list string))
    (dump : OrderInstance -> string)
    (body : JSON) (ms : list ConversationMessage) (msgs : list BaseMessage)
    (a : AiAnalysis) (others : list AiAnalysis)
    (errs : ValidationError) (answer : string) (answers : list string) :
  validate_message_list body = inr ms ->
  categorize_messages ms = inr msgs ->
  extraction msgs = Some (a :: others) ->
  EnhancedOrderInitiation_init (model_dump (orderInitiation a)) = inl errs ->
  clarification errs (comment a) = Some (answer :: answers) ->
  load_default_values extraction clarification dump body
  = ok (ms ++ [mkConversationMessage AI answer (Some OrderInitiationPayload)
                 (Some (dump (orderInitiation a)))])
  /\ calls_of (graph_invoke extraction clarification dump (inputs_of ms))
     = [create_content_invoke msgs; validate_content_invoke errs (comment a)].
Proof.
  intros Hb Hm Hx He Hc. rewrite (load_default_values_accepted _ _ _ _ _ Hb).
  rewrite graph_invoke_cases. cbv zeta. rewrite Hm, Hx, He, Hc. split; reflexivity.
Qed.

Lemma request_with_rejected_order_witness :
  load_default_values
    (constant_extraction (mkAiAnalysis (plain scenario_4) "Thank you."))
    (fixed_chain "Could you check the security?") sample_dump
    (JArray (map json_of_message [human_turn]))
  = ok ([human_turn]
        ++ [mkConversationMessage AI "Could you check the security?"
              (Some OrderInitiationPayload) (Some (sample_dump (plain scenario_4)))])
  /\ calls_of (graph_invoke
                 (constant_extraction (mkAiAnalysis (plain scenario_4) "Thank you."))
                 (fixed_chain "Could you check the security?") sample_dump
                 (inputs_of [human_turn]))
     = [create_content_invoke [AIMessage "AB12345 100"];
        validate_content_invoke (field_errors scenario_4) "Thank you."].
Proof.
  apply (request_with_rejected_order _ _ _ _ [human_turn] [AIMessage "AB12345 100"]
           (mkAiAnalysis (plain scenario_4) "Thank you.") []
           (field_errors scenario_4) "Could you check the security?" []).
  - reflexivity.
  - reflexivity.
  - reflexivity.
  - vm_compute. reflexivity.
  - reflexivity.
Defined.

(** X9. When the history gives model messages and the extraction chain
    raises or gives no candidate, the request fails with that exception
    ([IndexError] for the empty list): there is no response body, and the
    clarification chain is not called. *)
Theorem request_without_candidate
    (extraction : list BaseMessage -> option (list AiAnalysis))
    (clarification : ValidationError -> string -> option (list string))
    (dump : OrderInstance -> string)
    (body : JSON) (ms : list ConversationMessage) (msgs : list BaseMessage)
    (exc : Exception) :
  validate_message_list body = inr ms ->
  categorize_messages ms = inr msgs ->
  no_first_output (extraction msgs) = Some exc ->
  load_default_values extraction clarification dump body = server_error exc
  /\ calls_of (graph_invoke extraction clarification dump (inputs_of ms))
     = [create_content_invoke msgs].
Proof.
  intros Hb Hm Hx. rewrite (load_default_values_accepted _ _ _ _ _ Hb).
  rewrite graph_invoke_cases. cbv zeta. rewrite Hm.
  destruct (extraction msgs) as [[|a rest]|];
    try discriminate Hx; injection Hx as <-; split; reflexivity.
Qed.

Lemma request_without_candidate_witness :
  load_default_values (fun _ => Some []) echo_chain sample_dump
    (JArray (map json_of_message [human_turn]))
  = server_error IndexError
  /\ calls_of (graph_invoke (fun _ => Some []) echo_chain sample_dump (inputs_of [human_turn]))
     = [create_content_invoke [AIMessage "AB12345 100"]].
Proof.
  apply (request_without_candidate (fun _ => Some []) echo_chain sample_dump
           (JArray (map json_of_message [human_turn])) [human_turn]
           [AIMessage "AB12345 100"] IndexError);
    reflexivity.
Defined.

(** X10. When the history gives model messages, the first candidate is
    rejected and the clarification chain raises or gives no answer, the
    request fails with that exception: no turn is made up in its place. *)
Theorem request_without_clarification
    (extraction : list BaseMessage -> option (list AiAnalysis))
    (clarification : ValidationError -> string -> option (list string))
    (dump : OrderInstance -> string)
    (body : JSON) (ms : list ConversationMessage) (msgs : list BaseMessage)
    (a : AiAnalysis) (others : list AiAnalysis)
    (errs : ValidationError) (exc : Exception) :
  validate_message_list body = inr ms ->
  categorize_messages ms = inr msgs ->
  extraction msgs = Some (a :: others) ->
  EnhancedOrderInitiation_init (model_dump (orderInitiation a)) = inl errs ->
  no_first_output (clarification errs (comment a)) = Some exc ->
  load_default_values extraction clarification dump body = server_error exc.
Proof.
  intros Hb Hm Hx He Hc. rewrite (load_default_values_accepted _ _ _ _ _ Hb).
  rewrite graph_invoke_cases. cbv zeta. rewrite Hm, Hx, He.
  destruct (clarification errs (comment a)) as [[|answer answers]|];
    try discriminate Hc; injection Hc as <-; reflexivity.
Qed.

Lemma request_without_clarification_witness :
  load_default_values
    (constant_extraction (mkAiAnalysis (plain scenario_3) "Thank you."))
    (fun _ _ => None) sample_dump (JArray (map json_of_message [human_turn]))
  = server_error ChainError.
Proof.
  apply (request_without_clarification _ (fun _ _ => None) sample_dump _ [human_turn]
           [AIMessage "AB12345 100"]
           (mkAiAnalysis (plain scenario_3) "Thank you.") []
           (field_errors scenario_3) ChainError).
  - reflexivity.
  - reflexivity.
  - reflexivity.
  - vm_compute. reflexivity.
  - reflexivity.
Defined.

(** X20. A request whose history has an AI turn without a payload fails in
    [categorize_order], with the exception of the message that cannot be
    built: neither chain is called and no turn is appended, whatever the
    chains would have answered. *)
Theorem request_with_ai_turn_without_payload
    (extraction : list BaseMessage -> option (list AiAnalysis))
    (clarification : ValidationError -> string -> option (list string))
    (dump : OrderInstance -> string)
    (body : JSON) (ms : list ConversationMessage) :
  validate_message_list body = inr ms ->
  Exists (fun m => data_type m = AI /\ payload m = None) ms ->
  load_default_values extraction clarification dump body
  = server_error ContentValidationError
  /\ calls_of (graph_invoke extraction clarification dump (inputs_of ms)) = [].
Proof.
  intros Hb Hex. rewrite (load_default_values_accepted _ _ _ _ _ Hb).
  rewrite graph_invoke_cases. cbv zeta.
  rewrite (categorize_messages_raises _ Hex). split; reflexivity.
Qed.

Lemma request_with_ai_turn_without_payload_witness :
  load_default_values
    (constant_extraction (mkAiAnalysis (plain scenario_2) "Thank you."))
    echo_chain sample_dump
    (JArray (map json_of_message [human_turn; ai_turn_without_payload]))
  = server_error ContentValidationError
  /\ calls_of (graph_invoke
                 (constant_extraction (mkAiAnalysis (plain scenario_2) "Thank you."))
                 echo_chain sample_dump (inputs_of [human_turn; ai_turn_without_payload]))
     = [].
Proof.
  apply (request_with_ai_turn_without_payload _ _ _ _ [human_turn; ai_turn_without_payload]).
  - reflexivity.
  - apply Exists_cons_tl. apply Exists_cons_hd. split; reflexivity.
Defined.

(** X11. No request ends in a [KeyError], whatever the body and whatever
    the chains answer: each node finds the keys it reads, written by the
    endpoint or by the nodes before it. *)
Theorem request_never_key_error
    (extraction : list BaseMessage -> option (list AiAnalysis))
    (clarification : ValidationError -> string -> option (list string))
    (dump : OrderInstance -> string)
    (body : JSON) (key : string) :
  load_default_values extraction clarification dump body <> server_error (KeyError key).
Proof.
  destruct (validate_message_list body) as [errors|ms] eqn:Hb.
  - unfold load_default_values. rewrite Hb. discriminate.
  - rewrite (load_default_values_accepted _ _ _ _ _ Hb), graph_invoke_cases. cbv zeta.
    destruct (categorize_messages ms) as [exc|msgs] eqn:Hm.
    + pose proof (categorize_messages_never_key_error _ _ Hm key) as Hk.
      intros H. injection H as ->. now apply Hk.
    + destruct (extraction msgs) as [[|a rest]|]; try discriminate.
      destruct (EnhancedOrderInitiation_init (model_dump (orderInitiation a))) as [errs|e].
      * destruct (clarification errs (comment a)) as [[|answer answers]|]; discriminate.
      * discriminate.
Qed.

(** X12. Whatever the chains answer, the body of a successful response is
    the history of the request, as validated, followed by exactly one turn;
    that turn is an AI turn with payload type OrderInitiation and a payload,
    so it satisfies the invariant of the messages. *)
Theorem response_appends_one_ai_turn
    (extraction : list BaseMessage -> option (list AiAnalysis))
    (clarification : ValidationError -> string -> option (list string))
    (dump : OrderInstance -> string)
    (body : JSON) (result : list ConversationMessage) :
  load_default_values extraction clarification dump body = ok result ->
  exists ms turn,
    validate_message_list body = inr ms
    /\ result = ms ++ [turn]
    /\ data_type turn = AI
    /\ payload_type turn = Some OrderInitiationPayload
    /\ payload turn <> None
    /\ message_invariant turn.
Proof.
  destruct (validate_message_list body) as [errors|ms] eqn:Hb.
  - unfold load_default_values. rewrite Hb. discriminate.
  - rewrite (load_default_values_accepted _ _ _ _ _ Hb), graph_invoke_cases. cbv zeta.
    destruct (categorize_messages ms) as [exc|msgs]; [discriminate|].
    destruct (extraction msgs) as [[|a rest]|]; try discriminate.
    destruct (EnhancedOrderInitiation_init (model_dump (orderInitiation a))) as [errs|e].
    + destruct (clarification errs (comment a)) as [[|answer answers]|]; try discriminate.
      cbn. intros H. injection H as <-.
      exists ms. eexists. split; [reflexivity|]. split; [reflexivity|].
      unfold message_invariant. cbn. repeat split; intros; discriminate.
    + cbn. intros H. injection H as <-.
      exists ms. eexists. split; [reflexivity|]. split; [reflexivity|].
      unfold message_invariant. cbn. repeat split; intros; discriminate.
Qed.

Lemma response_appends_one_ai_turn_witness :
  exists ms turn,
    validate_message_list (JArray (map json_of_message [human_turn])) = inr ms
    /\ [human_turn;
        mkConversationMessage AI "Thank you." (Some OrderInitiationPayload)
          (Some "{intervenant:AB12345}")]
       = ms ++ [turn]
    /\ data_type turn = AI
    /\ payload_type turn = Some OrderInitiationPayload
    /\ payload turn <> None
    /\ message_invariant turn.
Proof.
  apply (response_appends_one_ai_turn
           (constant_extraction (mkAiAnalysis (plain scenario_2) "Thank you."))
           echo_chain sample_dump).
  vm_compute. reflexivity.
Defined.

(** X13. On the inputs of a request the graph calls no chain when
    [categorize_order] raises. When it returns, the graph calls the
    extraction chain exactly once, first, on the model messages of the
    history; it calls the clarification chain at most once, after it, and
    never when the first candidate passes the strict class. *)
Theorem graph_calls
    (extraction : list BaseMessage -> option (list AiAnalysis))
    (clarification : ValidationError -> string -> option (list string))
    (dump : OrderInstance -> string)
    (ms : list ConversationMessage) :
  let calls := calls_of (graph_invoke extraction clarification dump (inputs_of ms)) in
  match categorize_messages ms with
  | inl _ => calls = []
  | inr msgs =>
      calls = [create_content_invoke msgs]
      \/ exists a others errs,
           extraction msgs = Some (a :: others)
           /\ EnhancedOrderInitiation_init (model_dump (orderInitiation a)) = inl errs
           /\ calls = [create_content_invoke msgs; validate_content_invoke errs (comment a)]
  end.
Proof.
  cbv zeta. rewrite graph_invoke_cases. cbv zeta.
  destruct (categorize_messages ms) as [exc|msgs]; [reflexivity|].
  destruct (extraction msgs) as [[|a rest]|] eqn:Hx; try (now left).
  destruct (EnhancedOrderInitiation_init (model_dump (orderInitiation a))) as [errs|e] eqn:He;
    [|now left].
  right. exists a, rest, errs. split; [reflexivity|]. split; [exact He|].
  destruct (clarification errs (comment a)) as [[|answer answers]|]; reflexivity.
Qed.

(** ** The validation of the request body *)

Lemma validate_items_all (items : list JSON) (index : nat) (ms : list ConversationMessage) :
  validate_items index items = inr ms <->
  Forall2 (fun item m => ConversationMessage_validate item = inr m) items ms.
Proof.
  revert index ms. induction items as [|item items IH]; intros index ms; cbn [validate_items].
  - split.
    + intros H. injection H as <-. constructor.
    + intros H. inversion H. reflexivity.
  - destruct (ConversationMessage_validate item) as [e|m] eqn:Hm.
    + split.
      * destruct (validate_items (S index) items); discriminate.
      * intros H. inversion H; subst. congruence.
    + destruct (validate_items (S index) items) as [errs|ms'] eqn:Hr.
      * split; [discriminate|].
        intros H. inversion H as [|? m' ? ms'' Hv Hrest]; subst.
        apply (IH (S index)) in Hrest. congruence.
      * split.
        -- intros H. injection H as <-. constructor; [exact Hm|]. now apply (IH (S index)).
        -- intros H. inversion H as [|? m' ? ms'' Hv Hrest]; subst.
           apply (IH (S index)) in Hrest. congruence.
Qed.

(** X14. A body is accepted only as a whole: it is a JSON array each item of
    which validates as a [ConversationMessage], and the messages handed to
    the graph are those of the items, one for one and in the same order. One
    item that does not validate, wherever it stands, rejects the request. *)
Theorem body_accepted_as_a_whole (body : JSON) (ms : list ConversationMessage) :
  validate_message_list body = inr ms <->
  exists items,
    body = JArray items
    /\ Forall2 (fun item m => ConversationMessage_validate item = inr m) items ms.
Proof.
  unfold validate_message_list. split.
  - destruct body; try discriminate. intros H. eexists. split; [reflexivity|].
    now apply (validate_items_all _ 0).
  - intros (items & -> & H). now apply (validate_items_all _ 0).
Qed.

(** ** The cache middleware *)

Lemma get_set_header_same (name value : string) (l : Headers) :
  get_header name (set_header name value l) = Some value.
Proof.
  induction l as [|[k v] l IH]; simpl.
  - now rewrite String.eqb_refl.
  - destruct (String.eqb k name) eqn:E; simpl; [now rewrite String.eqb_refl|].
    now rewrite E.
Qed.

Lemma get_remove_header_other (name k : string) (l : Headers) :
  String.eqb k name = false ->
  get_header k (remove_header name l) = get_header k l.
Proof.
  intros Hk. induction l as [|[k' v] l IH]; simpl; [reflexivity|].
  destruct (String.eqb k' name) eqn:E; simpl.
  - apply String.eqb_eq in E. subst k'.
    rewrite String.eqb_sym, Hk. exact IH.
  - now rewrite IH.
Qed.

Lemma get_set_header_other (name value k : string) (l : Headers) :
  String.eqb k name = false ->
  get_header k (set_header name value l) = get_header k l.
Proof.
  intros Hk. induction l as [|[k' v] l IH]; simpl.
  - now rewrite String.eqb_sym, Hk.
  - destruct (String.eqb k' name) eqn:E; simpl.
    + apply String.eqb_eq in E. subst k'.
      rewrite String.eqb_sym, Hk. now apply get_remove_header_other.
    + now rewrite IH.
Qed.

(** Entries selected by their name, for a selection that leaves [name] out,
    are not touched by an assignment to [name]. *)
Lemma filter_remove_header (p : string -> bool) (name : string) (l : Headers) :
  p name = false ->
  filter (fun kv => p (fst kv)) (remove_header name l) = filter (fun kv => p (fst kv)) l.
Proof.
  intros Hp. induction l as [|[k v] l IH]; simpl; [reflexivity|].
  destruct (String.eqb k name) eqn:E; simpl.
  - apply String.eqb_eq in E. subst k. now rewrite Hp.
  - now rewrite IH.
Qed.

Lemma filter_set_header (p : string -> bool) (name value : string) (l : Headers) :
  p name = false ->
  filter (fun kv => p (fst kv)) (set_header name value l) = filter (fun kv => p (fst kv)) l.
Proof.
  intros Hp. induction l as [|[k v] l IH]; simpl.
  - now rewrite Hp.
  - destruct (String.eqb k name) eqn:E; simpl.
    + apply String.eqb_eq in E. subst k. rewrite Hp. now apply filter_remove_header.
    + now rewrite IH.
Qed.

Lemma filter_name_remove_header (name : string) (l : Headers) :
  filter (fun kv => String.eqb (fst kv) name) (remove_header name l) = [].
Proof.
  induction l as [|[k v] l IH]; simpl; [reflexivity|].
  destruct (String.eqb k name) eqn:E; simpl; [exact IH|]. now rewrite E.
Qed.

Lemma filter_name_set_header (name value : string) (l : Headers) :
  filter (fun kv => String.eqb (fst kv) name) (set_header name value l) = [(name, value)].
Proof.
  induction l as [|[k v] l IH]; simpl.
  - now rewrite String.eqb_refl.
  - destruct (String.eqb k name) eqn:E; simpl.
    + now rewrite String.eqb_refl, filter_name_remove_header.
    + now rewrite E.
Qed.

(** Assigning to a header the value its only entry already has changes
    nothing. *)
Lemma set_header_fixed (name value : string) (l : Headers) :
  filter (fun kv => String.eqb (fst kv) name) l = [(name, value)] ->
  set_header name value l = l.
Proof.
  induction l as [|[k v] l IH]; simpl; [discriminate|].
  destruct (String.eqb k name) eqn:E.
  - intros H. injection H as -> -> Hrest. f_equal.
    unfold remove_header. clear IH E.
    induction l as [|[k' v'] l IH]; simpl in *; [reflexivity|].
    destruct (String.eqb k' name); [discriminate Hrest|]. simpl. now rewrite IH.
  - intros H. now rewrite IH.
Qed.

Lemma dispatch_headers {Request : Type} (call_next : Request -> HttpResponse)
    (request : Request) :
  headers (dispatch call_next request)
  = set_header "expires" "0"
      (set_header "pragma" "no-cache"
         (set_header "cache-control"
            "no-store, no-cache, must-revalidate, max-age=0, post-check=0, pre-check=0"
            (headers (call_next request)))).
Proof. reflexivity. Qed.

(** X15. Whatever the rest of the application answered, the response that
    leaves [NoCacheMiddleware] carries the three headers with the values of
    the middleware, under any spelling of their names, each in exactly one
    entry: values set upstream are overwritten and duplicates removed. *)
Theorem dispatch_sets_no_cache_headers {Request : Type}
    (call_next : Request -> HttpResponse) (request : Request) :
  let h := headers (dispatch call_next request) in
  headers_getitem "Cache-Control" h
  = Some "no-store, no-cache, must-revalidate, max-age=0, post-check=0, pre-check=0"
  /\ headers_getitem "Pragma" h = Some "no-cache"
  /\ headers_getitem "Expires" h = Some "0"
  /\ Forall (fun name => length (filter (fun kv => String.eqb (fst kv) name) h) = 1)
       no_cache_names.
Proof.
  cbv zeta. rewrite dispatch_headers. unfold headers_getitem.
  change (lower "Cache-Control") with "cache-control".
  change (lower "Pragma") with "pragma". change (lower "Expires") with "expires".
  repeat split.
  - rewrite !get_set_header_other by reflexivity. apply get_set_header_same.
  - rewrite get_set_header_other by reflexivity. apply get_set_header_same.
  - apply get_set_header_same.
  - unfold no_cache_names. repeat constructor.
    + rewrite !(filter_set_header (fun k => String.eqb k "cache-control")) by reflexivity.
      now rewrite filter_name_set_header.
    + rewrite (filter_set_header (fun k => String.eqb k "pragma")) by reflexivity.
      now rewrite filter_name_set_header.
    + now rewrite filter_name_set_header.
Qed.

(** X16. [NoCacheMiddleware] changes nothing else: the status and the body
    of the response are those of the rest of the application, and so are
    the headers of every other name, in their order. *)
Theorem dispatch_keeps_the_rest {Request : Type}
    (call_next : Request -> HttpResponse) (request : Request) :
  status_code (dispatch call_next request) = status_code (call_next request)
  /\ response_body (dispatch call_next request) = response_body (call_next request)
  /\ filter (fun kv => negb (is_no_cache_name (fst kv))) (headers (dispatch call_next request))
     = filter (fun kv => negb (is_no_cache_name (fst kv))) (headers (call_next request)).
Proof.
  split; [reflexivity|]. split; [reflexivity|].
  rewrite dispatch_headers.
  now rewrite !(filter_set_header (fun k => negb (is_no_cache_name k))) by reflexivity.
Qed.

(** X17. Going through the middleware twice gives the response of going
    through it once. *)
Theorem dispatch_idempotent {Request : Type}
    (call_next : Request -> HttpResponse) (request : Request) :
  dispatch (dispatch call_next) request = dispatch call_next request.
Proof.
  set (once := dispatch call_next request).
  assert (H : headers (dispatch (dispatch call_next) request) = headers once).
  { rewrite dispatch_headers. fold once. subst once. rewrite dispatch_headers.
    set (h := headers (call_next request)).
    set (h1 := set_header "cache-control" _ h).
    set (h2 := set_header "pragma" _ h1). set (h3 := set_header "expires" _ h2).
    assert (E1 : set_header "cache-control"
                   "no-store, no-cache, must-revalidate, max-age=0, post-check=0, pre-check=0"
                   h3 = h3).
    { apply set_header_fixed. subst h3 h2 h1.
      rewrite !(filter_set_header (fun k => String.eqb k "cache-control")) by reflexivity.
      apply filter_name_set_header. }
    rewrite E1.
    assert (E2 : set_header "pragma" "no-cache" h3 = h3).
    { apply set_header_fixed. subst h3 h2.
      rewrite (filter_set_header (fun k => String.eqb k "pragma")) by reflexivity.
      apply filter_name_set_header. }
    rewrite E2.
    apply set_header_fixed. subst h3. apply filter_name_set_header. }
  unfold dispatch at 1. fold once.
  change (mkHttpResponse (status_code once) (headers (dispatch (dispatch call_next) request))
            (response_body once) = once).
  rewrite H. now destruct once.
Qed.

(** ** Members of a message that are not fields *)

Lemma dict_get_other (key k : string) (v : JSON) (m1 m2 : list (string * JSON)) :
  String.eqb k key = false ->
  dict_get key (m1 ++ (k, v) :: m2) = dict_get key (m1 ++ m2).
Proof.
  intros Hk. induction m1 as [|[k' v'] m1 IH]; simpl.
  - destruct (dict_get key m2); [reflexivity|]. now rewrite Hk.
  - now rewrite IH.
Qed.

(** X19. A member of a message object whose name is none of the four fields
    is ignored, wherever it stands among the members: the message validates
    to the same result with it as without it. *)
Theorem unknown_member_ignored (k : string) (v : JSON) (m1 m2 : list (string * JSON)) :
  ~ In k ["data_type"; "data"; "payload_type"; "payload"] ->
  ConversationMessage_validate (JObject (m1 ++ (k, v) :: m2))
  = ConversationMessage_validate (JObject (m1 ++ m2)).
Proof.
  intros Hk. unfold ConversationMessage_validate.
  assert (H : forall key, In key ["data_type"; "data"; "payload_type"; "payload"] ->
                          String.eqb k key = false).
  { intros key Hin. apply String.eqb_neq. intros ->. now apply Hk. }
  rewrite !dict_get_other by (apply H; cbn; auto).
  reflexivity.
Qed.

Lemma unknown_member_ignored_witness :
  ConversationMessage_validate
    (JObject ([("data_type", JString "Human")]
              ++ ("id", JNumber 7%float) :: [("data", JString "buy 100")]))
  = ConversationMessage_validate
      (JObject ([("data_type", JString "Human")] ++ [("data", JString "buy 100")])).
Proof.
  apply unknown_member_ignored.
  cbn. intros [H|[H|[H|[H|[]]]]]; discriminate H.
Defined.
